(** * Consent management: the consent table, its row-level security, and the
      pages that keep a client-side mirror of it.

    The development embeds three sources:
    - the SQL migration that creates [user_provider_consent] (columns and
      defaults, the four row-level security policies, the [BEFORE UPDATE]
      trigger, the unique index on [(user_id, provider_id)]);
    - [src/pages/Consent.tsx] (fetch, realtime handler, access request,
      approve and deny);
    - [src/pages/Providers.tsx] (add provider, update permissions, delete
      provider).

    The pages talk to the table through the supabase client.  A call of the
    client is modelled as a [Request] value that the store executes under an
    environment [Env] (the authenticated principal, the clock, the generated
    uuid); the page logic around the call is modelled as a small program
    [Prog] that first changes the page state, then issues at most one request,
    and finally reacts to its outcome. *)

From Stdlib Require Import List Ascii String ZArith Bool Lia Sorted.
Import ListNotations.
Open Scope string_scope.
Open Scope list_scope.

(** ** The table [user_provider_consent] *)

Module Schema.

(** A [uuid] value in its text form.  Which texts the column type accepts is
    the database's business and is a field of [Env] below. *)
Abbreviation uuid := string (only parsing).

(** A [timestamptz] value, as a count of clock ticks. *)
Abbreviation timestamptz := Z (only parsing).

(** A row of the table; the same shape as the [ConsentRecord] interface of
    Consent.tsx. *)
Record ConsentRecord := mkConsentRecord {
  id : uuid;
  user_id : uuid;
  provider_id : uuid;
  lab_results : bool;
  medications : bool;
  fitness_data : bool;
  approved : bool;
  created_at : timestamptz;
  updated_at : timestamptz
}.

Definition Table := list ConsentRecord.

(** The JSON object a client sends for an insert or an upsert.  A key that is
    absent (or [undefined], which JSON serialisation drops) is [None]; the
    column then takes its default. *)
Record Values := mkValues {
  v_id : option string;
  v_user_id : option string;
  v_provider_id : option string;
  v_lab_results : option bool;
  v_medications : option bool;
  v_fitness_data : option bool;
  v_approved : option bool;
  v_created_at : option timestamptz;
  v_updated_at : option timestamptz
}.

(** The JSON object of an update.  The pages never write [id], [user_id] or
    [provider_id] in an update, and the object has no such keys. *)
Record Patch := mkPatch {
  p_lab_results : option bool;
  p_medications : option bool;
  p_fitness_data : option bool;
  p_approved : option bool;
  p_created_at : option timestamptz;
  p_updated_at : option timestamptz
}.

Inductive Column := col_id | col_user_id | col_provider_id.

(** [.eq(column, value)] *)
Inductive Filter := eq_filter (column : Column) (value : string).

Inductive UniqueIndex :=
| user_provider_consent_pkey
| idx_user_provider_consent_user_provider.

(** The errors the table can raise, by SQLSTATE. *)
Inductive SqlError :=
| invalid_text_representation                (* 22P02: not a uuid *)
| insufficient_privilege                     (* 42501: row-level security *)
| not_null_violation (column : string)       (* 23502 *)
| unique_violation (index : UniqueIndex)     (* 23505 *)
| foreign_key_violation.                     (* 23503 *)

Inductive Res (A : Type) :=
| ok (a : A)
| err (e : SqlError).
Arguments ok {A} a.
Arguments err {A} e.

Definition bind {A B : Type} (r : Res A) (k : A -> Res B) : Res B :=
  match r with
  | ok a => k a
  | err e => err e
  end.

Notation "x <- r ;; k" := (bind r (fun x => k))
  (at level 61, r at next level, right associativity).

Definition guard (b : bool) (e : SqlError) : Res unit :=
  if b then ok tt else err e.

(** What a statement sees of the server besides the table. *)
Record Env := mkEnv {
  auth_uid : option uuid;        (* auth.uid(); NULL when nobody is signed in *)
  now : timestamptz;             (* now() *)
  gen_random_uuid : uuid;        (* the value gen_random_uuid() returns *)
  uuid_in : string -> bool;      (* does the text parse as a uuid *)
  auth_users : list uuid         (* the ids present in auth.users *)
}.

Inductive Command := SELECT | INSERT | UPDATE | DELETE.

(** The expression [auth.uid() = user_id] of all four policies.  A comparison
    with NULL is not true. *)
Definition owner_expr (e : Env) (owner : uuid) : bool :=
  match auth_uid e with
  | Some u => String.eqb u owner
  | None => false
  end.

(** Row-level security is enabled and there is one policy per command:
    [USING] for SELECT, UPDATE and DELETE, [WITH CHECK] for INSERT. *)
Definition rls (e : Env) (cmd : Command) (r : ConsentRecord) : bool :=
  match cmd with
  | SELECT => owner_expr e (user_id r)
  | UPDATE => owner_expr e (user_id r)
  | INSERT => owner_expr e (user_id r)
  | DELETE => owner_expr e (user_id r)
  end.

Definition column_of (c : Column) (r : ConsentRecord) : uuid :=
  match c with
  | col_id => id r
  | col_user_id => user_id r
  | col_provider_id => provider_id r
  end.

Definition matches (r : ConsentRecord) (f : Filter) : bool :=
  match f with
  | eq_filter c v => String.eqb (column_of c r) v
  end.

Definition filter_value (f : Filter) : string :=
  match f with
  | eq_filter _ v => v
  end.

Definition filters_parse (e : Env) (fs : list Filter) : bool :=
  forallb (fun f => uuid_in e (filter_value f)) fs.

(** The rows a statement of kind [cmd] with the given filters works on: those
    the SELECT policy shows, the policy of [cmd] admits, and the filters
    match. *)
Definition targets (e : Env) (cmd : Command) (fs : list Filter)
    (r : ConsentRecord) : bool :=
  rls e SELECT r && rls e cmd r && forallb (matches r) fs.

Definition opt_parses (e : Env) (o : option string) : bool :=
  match o with
  | Some s => uuid_in e s
  | None => true
  end.

Definition default {A : Type} (d : A) (o : option A) : A :=
  match o with
  | Some a => a
  | None => d
  end.

(** The row proposed for insertion: column defaults filled in, the INSERT
    policy checked, then the NOT NULL constraints. *)
Definition candidate (e : Env) (v : Values) : Res ConsentRecord :=
  _ <- guard (opt_parses e (v_id v) && opt_parses e (v_user_id v)
              && opt_parses e (v_provider_id v))
             invalid_text_representation ;;
  match v_user_id v with
  | None => err insufficient_privilege
  | Some u =>
      _ <- guard (owner_expr e u) insufficient_privilege ;;
      match v_provider_id v with
      | None => err (not_null_violation "provider_id")
      | Some p =>
          ok {| id := default (gen_random_uuid e) (v_id v);
                user_id := u;
                provider_id := p;
                lab_results := default false (v_lab_results v);
                medications := default false (v_medications v);
                fitness_data := default false (v_fitness_data v);
                approved := default false (v_approved v);
                created_at := default (now e) (v_created_at v);
                updated_at := default (now e) (v_updated_at v) |}
      end
  end.

Definition same_id (r x : ConsentRecord) : bool :=
  String.eqb (id x) (id r).

Definition same_pair (r x : ConsentRecord) : bool :=
  String.eqb (user_id x) (user_id r) && String.eqb (provider_id x) (provider_id r).

(** The checks a row goes through when it is written next to the rows
    [others]: the primary key and the unique index on the pair as the row
    enters the indexes, then the foreign key to auth.users. *)
Definition unique_indexes (others : Table) (r : ConsentRecord) : Res unit :=
  _ <- guard (negb (existsb (same_id r) others))
             (unique_violation user_provider_consent_pkey) ;;
  guard (negb (existsb (same_pair r) others))
        (unique_violation idx_user_provider_consent_user_provider).

Definition references_auth_users (e : Env) (r : ConsentRecord) : Res unit :=
  guard (existsb (String.eqb (user_id r)) (auth_users e)) foreign_key_violation.

Definition constraints (e : Env) (others : Table) (r : ConsentRecord) : Res unit :=
  _ <- unique_indexes others r ;;
  references_auth_users e r.

(** INSERT *)
Definition insert_row (e : Env) (t : Table) (v : Values) : Res Table :=
  r <- candidate e v ;;
  _ <- constraints e t r ;;
  ok (t ++ [r]).

(** The trigger function [update_updated_at_column], run BEFORE UPDATE for
    each row. *)
Definition update_updated_at_column (e : Env) (NEW : ConsentRecord) : ConsentRecord :=
  {| id := id NEW;
     user_id := user_id NEW;
     provider_id := provider_id NEW;
     lab_results := lab_results NEW;
     medications := medications NEW;
     fitness_data := fitness_data NEW;
     approved := approved NEW;
     created_at := created_at NEW;
     updated_at := now e |}.

Definition apply_patch (p : Patch) (r : ConsentRecord) : ConsentRecord :=
  {| id := id r;
     user_id := user_id r;
     provider_id := provider_id r;
     lab_results := default (lab_results r) (p_lab_results p);
     medications := default (medications r) (p_medications p);
     fitness_data := default (fitness_data r) (p_fitness_data p);
     approved := default (approved r) (p_approved p);
     created_at := default (created_at r) (p_created_at p);
     updated_at := default (updated_at r) (p_updated_at p) |}.

Definition is_some {A : Type} (o : option A) : bool :=
  match o with
  | Some _ => true
  | None => false
  end.

Definition patch_is_empty (p : Patch) : bool :=
  negb (is_some (p_lab_results p) || is_some (p_medications p)
        || is_some (p_fitness_data p) || is_some (p_approved p)
        || is_some (p_created_at p) || is_some (p_updated_at p)).

(** UPDATE ... SET <patch> WHERE <filters>.  With no column to set there is no
    statement to run.  The patch leaves [user_id] alone, so a row that passed
    the policy before the update passes it after. *)
Definition update_rows (e : Env) (t : Table) (p : Patch) (fs : list Filter) : Res Table :=
  _ <- guard (filters_parse e fs) invalid_text_representation ;;
  if patch_is_empty p then ok t
  else ok (map (fun r => if targets e UPDATE fs r
                         then update_updated_at_column e (apply_patch p r)
                         else r) t).

(** DELETE FROM ... WHERE <filters> *)
Definition delete_rows (e : Env) (t : Table) (fs : list Filter) : Res Table :=
  _ <- guard (filters_parse e fs) invalid_text_representation ;;
  ok (filter (fun r => negb (targets e DELETE fs r)) t).

(** SELECT * FROM ... WHERE <filters> *)
Definition select_rows (e : Env) (t : Table) (fs : list Filter) : Res (list ConsentRecord) :=
  _ <- guard (filters_parse e fs) invalid_text_representation ;;
  ok (filter (targets e SELECT fs) t).

(** The unique index that arbitrates an upsert. *)
Inductive ConflictTarget :=
| on_primary_key
| on_user_provider.

Definition arbiter (c : ConflictTarget) (r : ConsentRecord) : ConsentRecord -> bool :=
  match c with
  | on_primary_key => same_id r
  | on_user_provider => same_pair r
  end.

(** [SET col = EXCLUDED.col] for every column the payload names. *)
Definition excluded (v : Values) (old : ConsentRecord) : ConsentRecord :=
  {| id := default (id old) (v_id v);
     user_id := default (user_id old) (v_user_id v);
     provider_id := default (provider_id old) (v_provider_id v);
     lab_results := default (lab_results old) (v_lab_results v);
     medications := default (medications old) (v_medications v);
     fitness_data := default (fitness_data old) (v_fitness_data v);
     approved := default (approved old) (v_approved v);
     created_at := default (created_at old) (v_created_at v);
     updated_at := default (updated_at old) (v_updated_at v) |}.

(** The table split at the first row that conflicts with the candidate. *)
Fixpoint split_conflict (same : ConsentRecord -> bool) (t : Table)
    : option (Table * ConsentRecord * Table) :=
  match t with
  | [] => None
  | x :: rest =>
      if same x then Some ([], x, rest)
      else match split_conflict same rest with
           | Some (before, old, after) => Some (x :: before, old, after)
           | None => None
           end
  end.

(** INSERT ... ON CONFLICT (<target>) DO UPDATE SET ...  The proposed row is
    checked as for an INSERT; when it conflicts on the arbiter index the
    existing row is updated instead: it must pass the UPDATE policy before and
    after, the trigger runs, and the foreign key is looked up again only when
    [user_id] changed. *)
Definition upsert_row (e : Env) (t : Table) (v : Values) (c : ConflictTarget) : Res Table :=
  r <- candidate e v ;;
  match split_conflict (arbiter c r) t with
  | None =>
      _ <- constraints e t r ;;
      ok (t ++ [r])
  | Some (before, old, after) =>
      _ <- guard (rls e UPDATE old) insufficient_privilege ;;
      let new := update_updated_at_column e (excluded v old) in
      _ <- guard (rls e UPDATE new) insufficient_privilege ;;
      _ <- unique_indexes (before ++ after) new ;;
      _ <- (if String.eqb (user_id new) (user_id old) then ok tt
            else references_auth_users e new) ;;
      ok (before ++ new :: after)
  end.

End Schema.

(** ** The supabase client, as the pages use it *)

Module Supabase.

(** One call of the query builder on [user_provider_consent]. *)
Inductive Request :=
| insert (values : Schema.Values)
| upsert (values : Schema.Values) (onConflict : option Schema.ConflictTarget)
| update (values : Schema.Patch) (filters : list Schema.Filter)
| delete (filters : list Schema.Filter)
| select (filters : list Schema.Filter).

(** The [{ data, error }] object a call resolves to. *)
Record Response := mkResponse {
  data : option (list Schema.ConsentRecord);
  error : option Schema.SqlError
}.

(** An awaited call either resolves to a response or throws (the request
    never reached the server). *)
Inductive Outcome :=
| resolved (r : Response)
| thrown.

Definition written (t : Schema.Table) (r : Schema.Res Schema.Table)
    : Schema.Table * Response :=
  match r with
  | Schema.ok t' => (t', {| data := None; error := None |})
  | Schema.err e => (t, {| data := None; error := Some e |})
  end.

Definition read (t : Schema.Table) (r : Schema.Res (list Schema.ConsentRecord))
    : Schema.Table * Response :=
  match r with
  | Schema.ok rows => (t, {| data := Some rows; error := None |})
  | Schema.err e => (t, {| data := None; error := Some e |})
  end.

(** What the server does with a request.  A statement that raises leaves the
    table as it was.  An upsert without [onConflict] is arbitrated by the
    primary key. *)
Definition exec (e : Schema.Env) (t : Schema.Table) (q : Request)
    : Schema.Table * Response :=
  match q with
  | insert v => written t (Schema.insert_row e t v)
  | upsert v c =>
      written t (Schema.upsert_row e t v (Schema.default Schema.on_primary_key c))
  | update p fs => written t (Schema.update_rows e t p fs)
  | delete fs => written t (Schema.delete_rows e t fs)
  | select fs => read t (Schema.select_rows e t fs)
  end.

(** The server as one awaited call meets it. *)
Record World := mkWorld {
  online : bool;
  env : Schema.Env
}.

Definition send (w : World) (t : Schema.Table) (q : Request)
    : Schema.Table * Outcome :=
  if online w
  then let (t', r) := exec (env w) t q in (t', resolved r)
  else (t, thrown).

Inductive LogEntry :=
| console_error (message : string).

(** An async handler: the page state after its synchronous part and what it
    logged, then at most one awaited request, whose outcome it turns into a
    state change and more log lines. *)
Inductive Prog (S : Type) :=
| done (s : S) (log : list LogEntry)
| await (s : S) (q : Request) (k : Outcome -> S -> S * list LogEntry).
Arguments done {S} s log.
Arguments await {S} s q k.

Definition requests {S : Type} (p : Prog S) : list Request :=
  match p with
  | done _ _ => []
  | await _ q _ => [q]
  end.

Record Ran (S : Type) := mkRan {
  state : S;
  table : Schema.Table;
  log : list LogEntry
}.
Arguments mkRan {S} state table log.
Arguments state {S} r.
Arguments table {S} r.
Arguments log {S} r.

Definition run {S : Type} (w : World) (t : Schema.Table) (p : Prog S) : Ran S :=
  match p with
  | done s l => mkRan s t l
  | await s q k =>
      let (t', o) := send w t q in
      let (s', l) := k o s in
      mkRan s' t' l
  end.

(** The pattern all mutating handlers share:
    [try { const { error } = await ...; if (error) console.error(m1, error) }
     catch (e) { console.error(m2, e) }] *)
Definition log_only {S : Type} (on_error on_throw : string)
    (o : Outcome) (s : S) : S * list LogEntry :=
  match o with
  | resolved r =>
      match error r with
      | Some _ => (s, [console_error on_error])
      | None => (s, [])
      end
  | thrown => (s, [console_error on_throw])
  end.

End Supabase.

(** The object [useSupabaseUser] hands to the pages. *)
Module UserData.

Record t := mk { id : string }.

(** [userData?.id] when it is truthy: there is a user and its id is not the
    empty string. *)
Definition signed_in (userData : option t) : option string :=
  match userData with
  | Some u => if String.eqb (id u) EmptyString then None else Some (id u)
  | None => None
  end.

End UserData.

(** ** Consent.tsx *)

Module Consent.

Import Supabase.

(** The page state the handlers touch: [userConsents], the mirror. *)
Definition Mirror := list Schema.ConsentRecord.

(** A [postgres_changes] payload: the event type with the part of [new] or
    [old] the handler reads. *)
Inductive Payload :=
| INSERT (new : Schema.ConsentRecord)
| UPDATE (new : Schema.ConsentRecord)
| DELETE (old_id : string).

(** The callback given to [.on('postgres_changes', ...)], as the updater it
    passes to [setUserConsents]. *)
Definition on_postgres_changes (payload : Payload) (prev : Mirror) : Mirror :=
  match payload with
  | INSERT new => prev ++ [new]
  | UPDATE new =>
      map (fun consent =>
             if String.eqb (Schema.id consent) (Schema.id new) then new else consent)
          prev
  | DELETE old_id =>
      filter (fun consent => negb (String.eqb (Schema.id consent) old_id)) prev
  end.

Definition fetchConsentRecords (userData : option UserData.t) (userConsents : Mirror)
    : Prog Mirror :=
  match UserData.signed_in userData with
  | None => done userConsents []
  | Some uid =>
      await userConsents
        (select [Schema.eq_filter Schema.col_user_id uid])
        (fun o s =>
           match o with
           | resolved r =>
               match error r with
               | Some _ => (s, [console_error "Error fetching consent records:"])
               | None =>
                   match data r with
                   | Some rows => (rows, [])
                   | None => (s, [])
                   end
               end
           | thrown => (s, [console_error "Failed to fetch consent records:"])
           end)
  end.

(** The argument of [handleAccessRequest]. *)
Record AccessRequest := mkAccessRequest {
  purpose : string;
  dataTypes : list string;
  duration : string;
  additionalNotes : string
}.

Definition includes (l : list string) (x : string) : bool :=
  existsb (String.eqb x) l.

Definition access_request_values (uid : string) (data : AccessRequest) : Schema.Values :=
  {| Schema.v_id := None;
     Schema.v_user_id := Some uid;
     Schema.v_provider_id := Some "generic-provider";
     Schema.v_lab_results := Some (includes (dataTypes data) "Lab Results");
     Schema.v_medications := Some (includes (dataTypes data) "Prescriptions");
     Schema.v_fitness_data := Some (includes (dataTypes data) "Fitness Data");
     Schema.v_approved := Some true;
     Schema.v_created_at := None;
     Schema.v_updated_at := None |}.

Definition handleAccessRequest (userData : option UserData.t) (data : AccessRequest)
    (s : Mirror) : Prog Mirror :=
  match UserData.signed_in userData with
  | None => done s [console_error "User not authenticated"]
  | Some uid =>
      await s (insert (access_request_values uid data))
        (log_only "Error creating consent record:" "Failed to create consent record:")
  end.

(** The Deny button of a pending request. *)
Definition deny (consent : Schema.ConsentRecord) (s : Mirror) : Prog Mirror :=
  await s (delete [Schema.eq_filter Schema.col_id (Schema.id consent)])
    (log_only "Error deleting consent record:" "Failed to delete consent record:").

Definition approve_patch : Schema.Patch :=
  {| Schema.p_lab_results := None;
     Schema.p_medications := None;
     Schema.p_fitness_data := None;
     Schema.p_approved := Some true;
     Schema.p_created_at := None;
     Schema.p_updated_at := None |}.

(** The Approve button of a pending request. *)
Definition approve (consent : Schema.ConsentRecord) (s : Mirror) : Prog Mirror :=
  await s (update approve_patch [Schema.eq_filter Schema.col_id (Schema.id consent)])
    (log_only "Error approving consent record:" "Failed to approve consent record:").

(** The records listed under "Access Requests", each with its two buttons. *)
Definition pending (userConsents : Mirror) : Mirror :=
  filter (fun consent => negb (Schema.approved consent)) userConsents.

(** What can happen to the page: the effect runs its fetch, a realtime event
    arrives, the request modal is submitted, a button of the [i]-th pending
    request is pressed. *)
Inductive Op :=
| op_fetch
| op_remote (payload : Payload)
| op_access_request (data : AccessRequest)
| op_deny (i : nat)
| op_approve (i : nat).

(** The program an operation starts, or [None] when the page offers no such
    operation: the channel is subscribed only for a signed-in user, and a
    button exists only for a listed record. *)
Definition perform (userData : option UserData.t) (op : Op) (s : Mirror)
    : option (Prog Mirror) :=
  match op with
  | op_fetch => Some (fetchConsentRecords userData s)
  | op_remote payload =>
      match UserData.signed_in userData with
      | Some _ => Some (done (on_postgres_changes payload s) [])
      | None => None
      end
  | op_access_request data => Some (handleAccessRequest userData data s)
  | op_deny i => option_map (fun consent => deny consent s) (nth_error (pending s) i)
  | op_approve i => option_map (fun consent => approve consent s) (nth_error (pending s) i)
  end.

Record Session := mkSession {
  mirror : Mirror;
  store : Schema.Table;
  issued : list Request;
  logged : list LogEntry
}.

(** Operations run one after the other, each against the world it meets. *)
Fixpoint session (userData : option UserData.t) (ops : list (Op * World))
    (c : Session) : option Session :=
  match ops with
  | [] => Some c
  | (op, w) :: rest =>
      match perform userData op (mirror c) with
      | None => None
      | Some p =>
          let r := run w (store c) p in
          session userData rest
            {| mirror := state r;
               store := table r;
               issued := issued c ++ requests p;
               logged := logged c ++ log r |}
      end
  end.

End Consent.

(** ** Providers.tsx *)

Module Providers.

Import Supabase.

Inductive Status := active | pending | inactive.

(** The [permissions] object.  [handleUpdatePermissions] receives it as a
    dictionary from key to boolean, so each of the three keys the page reads
    may be missing. *)
Record Permissions := mkPermissions {
  labResults : option bool;
  medications : option bool;
  fitnessData : option bool
}.

Record Provider := mkProvider {
  id : string;
  name : string;
  category : string;
  status : Status;
  dataTypes : list string;
  lastSync : string;
  logo : string;
  permissions : Permissions
}.

Definition all_permissions (a b c : bool) : Permissions :=
  {| labResults := Some a; medications := Some b; fitnessData := Some c |}.

Definition initialProviders : list Provider :=
  [ {| id := "1"; name := "Memorial Hospital"; category := "Healthcare Provider";
       status := active;
       dataTypes := ["Medical Records"; "Lab Results"; "Prescriptions"];
       lastSync := "2024-03-15T10:30:00Z"; logo := "/elroi-logo.svg";
       permissions := all_permissions true true true |};
    {| id := "2"; name := "HealthTrack Pharmacy"; category := "Pharmacy";
       status := pending;
       dataTypes := ["Medication History"; "Prescription Records"; "Insurance Claims"];
       lastSync := "2024-03-14T15:45:00Z"; logo := "/elroi-logo.svg";
       permissions := all_permissions false true true |};
    {| id := "3"; name := "Wellness Center"; category := "Fitness & Wellness";
       status := inactive;
       dataTypes := ["Fitness Metrics"; "Nutrition Data"; "Wellness Assessments"];
       lastSync := "2024-03-13T09:15:00Z"; logo := "/elroi-logo.svg";
       permissions := all_permissions true false true |} ].

(** The page state the handlers touch. *)
Record State := mkState {
  providersList : list Provider;
  isAccessModalOpen : bool
}.

Definition initial : State :=
  {| providersList := initialProviders; isAccessModalOpen := false |}.

(** The argument of [handleAddProvider]. *)
Record NewProvider := mkNewProvider {
  new_name : string;
  new_category : string;
  new_dataTypes : list string
}.

Definition add_values (uid providerId : string) : Schema.Values :=
  {| Schema.v_id := None;
     Schema.v_user_id := Some uid;
     Schema.v_provider_id := Some providerId;
     Schema.v_lab_results := None;
     Schema.v_medications := None;
     Schema.v_fitness_data := None;
     Schema.v_approved := Some false;
     Schema.v_created_at := None;
     Schema.v_updated_at := None |}.

(** [random36] is the text [Math.random().toString(36)] comes to, of which
    [substr(2, 9)] keeps at most nine characters after the first two, and
    [lastSync] is the reading of [new Date().toISOString()]. *)
Definition handleAddProvider (userData : option UserData.t)
    (random36 lastSync : string) (newProvider : NewProvider) (s : State)
    : Prog State :=
  let providerId := String.substring 2 9 random36 in
  let provider :=
    {| id := providerId;
       name := new_name newProvider;
       category := new_category newProvider;
       status := pending;
       dataTypes := new_dataTypes newProvider;
       lastSync := lastSync;
       logo := "/elroi-logo.svg";
       permissions := all_permissions false false false |} in
  let s' := {| providersList := providersList s ++ [provider];
               isAccessModalOpen := isAccessModalOpen s |} in
  match UserData.signed_in userData with
  | Some uid =>
      await s' (insert (add_values uid providerId))
        (log_only "Error creating consent record:" "Failed to create consent record:")
  | None => done s' []
  end.

Definition permission_values (uid providerId : string) (permissions : Permissions)
    : Schema.Values :=
  {| Schema.v_id := None;
     Schema.v_user_id := Some uid;
     Schema.v_provider_id := Some providerId;
     Schema.v_lab_results := labResults permissions;
     Schema.v_medications := medications permissions;
     Schema.v_fitness_data := fitnessData permissions;
     Schema.v_approved := Some true;
     Schema.v_created_at := None;
     Schema.v_updated_at := None |}.

Definition with_permissions (provider : Provider) (p : Permissions) : Provider :=
  {| id := id provider;
     name := name provider;
     category := category provider;
     status := status provider;
     dataTypes := dataTypes provider;
     lastSync := lastSync provider;
     logo := logo provider;
     permissions := p |}.

Definition handleUpdatePermissions (userData : option UserData.t)
    (providerId : string) (permissions : Permissions) (s : State) : Prog State :=
  let s' :=
    {| providersList :=
         map (fun provider =>
                if String.eqb (id provider) providerId
                then with_permissions provider permissions
                else provider)
             (providersList s);
       isAccessModalOpen := isAccessModalOpen s |} in
  match UserData.signed_in userData with
  | Some uid =>
      await s' (upsert (permission_values uid providerId permissions) None)
        (log_only "Error updating provider permissions:"
                  "Failed to update provider permissions:")
  | None => done s' []
  end.

Definition handleDeleteProvider (userData : option UserData.t)
    (providerId : string) (s : State) : Prog State :=
  let s' :=
    {| providersList :=
         filter (fun provider => negb (String.eqb (id provider) providerId))
                (providersList s);
       isAccessModalOpen := false |} in
  match UserData.signed_in userData with
  | Some uid =>
      await s'
        (delete [Schema.eq_filter Schema.col_user_id uid;
                 Schema.eq_filter Schema.col_provider_id providerId])
        (log_only "Error deleting provider consent:" "Failed to delete provider consent:")
  | None => done s' []
  end.

Inductive Op :=
| op_add (random36 lastSync : string) (newProvider : NewProvider)
| op_update_permissions (providerId : string) (permissions : Permissions)
| op_delete (providerId : string).

Definition perform (userData : option UserData.t) (op : Op) (s : State) : Prog State :=
  match op with
  | op_add random36 lastSync newProvider =>
      handleAddProvider userData random36 lastSync newProvider s
  | op_update_permissions providerId permissions =>
      handleUpdatePermissions userData providerId permissions s
  | op_delete providerId => handleDeleteProvider userData providerId s
  end.

Record Session := mkSession {
  page : State;
  store : Schema.Table;
  issued : list Request;
  logged : list LogEntry
}.

Fixpoint session (userData : option UserData.t) (ops : list (Op * World))
    (c : Session) : Session :=
  match ops with
  | [] => c
  | (op, w) :: rest =>
      let p := perform userData op (page c) in
      let r := run w (store c) p in
      session userData rest
        {| page := state r;
           store := table r;
           issued := issued c ++ requests p;
           logged := logged c ++ log r |}
  end.

End Providers.

(** ** Vocabulary of the properties *)

Module Props.

Import Schema Supabase.

Definition owned_by (u : uuid) (r : ConsentRecord) : bool :=
  String.eqb (user_id r) u.

Definition pair (r : ConsentRecord) : uuid * uuid :=
  (user_id r, provider_id r).

Definition unique_ids (t : Table) : Prop := NoDup (map id t).

Definition unique_pairs (t : Table) : Prop := NoDup (map pair t).

(** What the primary key and the unique index on the pair maintain. *)
Definition consistent (t : Table) : Prop := unique_ids t /\ unique_pairs t.

(** The tables the server can be in: it starts empty and changes only by
    executing requests. *)
Inductive reachable : Table -> Prop :=
| reachable_empty : reachable []
| reachable_exec (e : Env) (t : Table) (q : Request) :
    reachable t -> reachable (fst (exec e t q)).








(** The type uuid holds 32 hexadecimal digits: a text that the server reads
    as a uuid has at least that many characters. *)
Definition reads_uuids (e : Env) : Prop :=
  forall s, uuid_in e s = true -> (32 <= String.length s)%nat.

(** The tables a server whose id columns are of type uuid can be in. *)
Inductive reachable_with_uuids : Table -> Prop :=
| uuids_empty : reachable_with_uuids []
| uuids_exec (e : Env) (t : Table) (q : Request) :
    reads_uuids e -> reachable_with_uuids t ->
    reachable_with_uuids (fst (exec e t q)).

Definition present (i : string) (m : Consent.Mirror) : bool :=
  existsb (fun consent => String.eqb (id consent) i) m.

(** The merge as the design describes it: a record that arrives with an
    insert or update event replaces the one with its id when there is one and
    is added otherwise; a delete event removes the record with that id. *)
Definition merge_by_id (payload : Consent.Payload) (m : Consent.Mirror) : Consent.Mirror :=
  match payload with
  | Consent.INSERT new | Consent.UPDATE new =>
      if present (id new) m
      then map (fun consent => if String.eqb (id consent) (id new) then new else consent) m
      else m ++ [new]
  | Consent.DELETE old_id =>
      filter (fun consent => negb (String.eqb (id consent) old_id)) m
  end.

Definition failed (o : Outcome) : bool :=
  match o with
  | resolved r => Schema.is_some (error r)
  | thrown => true
  end.

(** The outcome of the request a program awaits, if it awaits one. *)
Definition outcome {S : Type} (w : World) (t : Table) (p : Prog S) : option Outcome :=
  match p with
  | done _ _ => None
  | await _ q _ => Some (snd (send w t q))
  end.

Definition store_failed {S : Type} (w : World) (t : Table) (p : Prog S) : bool :=
  match outcome w t p with
  | Some o => failed o
  | None => false
  end.

(** The response of a write that went through. *)
Definition success : Outcome := resolved {| data := None; error := None |}.

(** The page state a program ends in when its request meets outcome [o]. *)
Definition settled {S : Type} (p : Prog S) (o : Outcome) : S :=
  match p with
  | done s _ => s
  | await s _ k => fst (k o s)
  end.

(** The run leaves the page in the state a successful request leaves it in. *)
Definition looks_successful {S : Type} (w : World) (t : Table) (p : Prog S) : Prop :=
  state (run w t p) = settled p success.

(** A failure of the store shows in the console and nowhere else. *)
Definition only_logged {S : Type} (w : World) (t : Table) (p : Prog S) : Prop :=
  store_failed w t p = true ->
  looks_successful w t p /\ exists m, log (run w t p) = [console_error m].

(** Only [labResults] is supplied. *)
Definition lab_results_only : Providers.Permissions :=
  {| Providers.labResults := Some true;
     Providers.medications := None;
     Providers.fitnessData := None |}.

Definition fresh_session (t : Table) : Consent.Session :=
  {| Consent.mirror := []; Consent.store := t;
     Consent.issued := []; Consent.logged := [] |}.

Definition fresh_providers_session (s : Providers.State) (t : Table) : Providers.Session :=
  {| Providers.page := s; Providers.store := t;
     Providers.issued := []; Providers.logged := [] |}.

Definition is_hex (c : Ascii.ascii) : bool :=
  let n := Ascii.nat_of_ascii c in
  ((48 <=? n) && (n <=? 57) || (97 <=? n) && (n <=? 102) || (65 <=? n) && (n <=? 70))%nat.

Fixpoint uuid_shape (i : nat) (s : string) : bool :=
  match s with
  | EmptyString => Nat.eqb i 36
  | String c rest =>
      (if Nat.eqb i 8 || Nat.eqb i 13 || Nat.eqb i 18 || Nat.eqb i 23
       then Ascii.eqb c "-"%char else is_hex c)
      && uuid_shape (S i) rest
  end.

(** The 8-4-4-4-12 text form of a uuid; the [uuid_in] of the sample server. *)
Definition hyphenated_uuid (s : string) : bool := uuid_shape 0 s.

Definition alice : uuid := "11111111-1111-4111-8111-111111111111".
Definition bob : uuid := "22222222-2222-4222-8222-222222222222".
Definition clinic : uuid := "aaaaaaaa-aaaa-4aaa-8aaa-aaaaaaaaaaaa".
Definition row1 : uuid := "00000000-0000-4000-8000-000000000001".
Definition row2 : uuid := "00000000-0000-4000-8000-000000000002".

(** A sample server: [who] is signed in, the clock reads [time], the next
    generated id is [fresh]. *)
Definition server (who : option uuid) (time : timestamptz) (fresh : uuid) : Env :=
  {| auth_uid := who;
     now := time;
     gen_random_uuid := fresh;
     uuid_in := hyphenated_uuid;
     auth_users := [alice; bob] |}.

Definition consent (i u p : uuid) (lab med fit app : bool) (c m : timestamptz)
    : ConsentRecord :=
  {| id := i; user_id := u; provider_id := p;
     lab_results := lab; medications := med; fitness_data := fit; approved := app;
     created_at := c; updated_at := m |}.

End Props.

(** ** The hook [useSupabaseUser] *)

Module UseSupabaseUser.

(** The error object of [supabase.auth.getUser()], as far as the hook reads
    it. *)
Record AuthError := mkAuthError {
  name : string;
  message : string
}.

(** An awaited call of the hook: it resolves, or it throws an error with a
    message. *)
Inductive Awaited (A : Type) :=
| fulfilled (a : A)
| rejected (message : string).
Arguments fulfilled {A} a.
Arguments rejected {A} message.

(** [{ data: { user }, error }] *)
Record GetUser := mkGetUser {
  user : option UserData.t;
  userError : option AuthError
}.

(** A row of the [users] table, column by column. *)
Definition Profile := list (string * string).

(** [{ data, error }] of the profile query. *)
Record GetProfile := mkGetProfile {
  profileData : option Profile;
  profileError : option string
}.

(** [{ ...user, profile }] *)
Record SessionUser := mkSessionUser {
  account : UserData.t;
  profile : option Profile
}.

(** The three pieces of state the hook returns. *)
Record Hook := mkHook {
  userData : option SessionUser;
  loading : bool;
  error : option string
}.

Definition initial : Hook :=
  {| userData := None; loading := true; error := None |}.

Inductive Console :=
| console_warn (text : string)
| console_error (text : string).

(** [err.message || 'Failed to fetch user data'] *)
Definition message_or_default (m : string) : string :=
  if String.eqb m EmptyString then "Failed to fetch user data" else m.

(** The [catch] block followed by [finally]. *)
Definition caught (m : string) (h : Hook) : Hook * list Console :=
  ({| userData := userData h; loading := false; error := Some (message_or_default m) |},
   [console_error "Error fetching user data:"]).

(** [getUser] is what [supabase.auth.getUser()] comes to, [getProfile id] what
    the query on [users] for that id comes to. *)
Definition fetchUserData (getUser : Awaited GetUser)
    (getProfile : string -> Awaited GetProfile) (h : Hook) : Hook * list Console :=
  match getUser with
  | rejected m => caught m h
  | fulfilled r =>
      match userError r with
      | Some e =>
          if negb (String.eqb (name e) "AuthSessionMissingError")
          then caught (message e) h
          else ({| userData := None; loading := false; error := error h |}, [])
      | None =>
          match user r with
          | Some u =>
              match getProfile (UserData.id u) with
              | rejected m => caught m h
              | fulfilled p =>
                  ({| userData := Some {| account := u; profile := profileData p |};
                      loading := false;
                      error := error h |},
                   match profileError p with
                   | Some _ => [console_warn "Error fetching user profile:"]
                   | None => []
                   end)
              end
          | None => ({| userData := userData h; loading := false; error := error h |}, [])
          end
      end
  end.

(** What a page gets when it reads [userData?.id]. *)
Definition page_user (h : Hook) : option string :=
  UserData.signed_in (option_map account (userData h)).

End UseSupabaseUser.

(** ** What the consent page shows *)

Module ConsentView.

(** A list section of the page: the records it lists, or the line it shows
    in their place. *)
Inductive Section_ :=
| entries (records : list Schema.ConsentRecord)
| placeholder (text : string).

(** "Current Access" *)
Definition currentAccess (userConsents : Consent.Mirror) : Section_ :=
  if Nat.ltb 0 (List.length userConsents)
  then entries (filter (fun consent => Schema.approved consent) userConsents)
  else placeholder "No active data sharing agreements.".

(** "Access Requests" *)
Definition accessRequests (userConsents : Consent.Mirror) : Section_ :=
  if Nat.ltb 0 (List.length userConsents)
  then entries (Consent.pending userConsents)
  else placeholder "No pending access requests.".

Definition listed (s : Section_) : list Schema.ConsentRecord :=
  match s with
  | entries records => records
  | placeholder _ => []
  end.

End ConsentView.

(** ** Vocabulary of the properties of the handlers *)

Module Flow.

Import Schema Supabase.

(** The records of [uid], in table order. *)
Definition listing (uid : uuid) (t : Table) : list ConsentRecord :=
  filter (Props.owned_by uid) t.

(** The server can be reached, knows the caller as [uid] and reads [uid] as a
    uuid. *)
Definition serves (w : World) (uid : uuid) : Prop :=
  online w = true /\ auth_uid (env w) = Some uid /\ uuid_in (env w) uid = true.

(** The record [r] once approved at [time]. *)
Definition approved_at (time : timestamptz) (r : ConsentRecord) : ConsentRecord :=
  {| id := id r;
     user_id := user_id r;
     provider_id := provider_id r;
     lab_results := lab_results r;
     medications := medications r;
     fitness_data := fitness_data r;
     approved := true;
     created_at := created_at r;
     updated_at := time |}.

(** The request names no [id] and no [created_at], and leaves the conflict
    target to the client's default. *)
Definition keeps_keys (q : Request) : Prop :=
  match q with
  | insert v => v_id v = None /\ v_created_at v = None
  | upsert v None => v_id v = None /\ v_created_at v = None
  | upsert _ (Some _) => False
  | update p _ => p_created_at p = None
  | delete _ => True
  | select _ => True
  end.

(** The row of the table that [r'] continues: same id, owner, provider and
    creation time. *)
Definition continues (r r' : ConsentRecord) : Prop :=
  id r' = id r /\ user_id r' = user_id r /\ provider_id r' = provider_id r
  /\ created_at r' = created_at r.

Definition has_id (i : string) (r : ConsentRecord) : bool :=
  String.eqb (id r) i.

Definition for_provider (p : string) (r : ConsentRecord) : bool :=
  String.eqb (provider_id r) p.

Definition provider_has_id (i : string) (p : Providers.Provider) : bool :=
  String.eqb (Providers.id p) i.

(** Sample worlds and arguments. *)
Definition at_server (who : option uuid) (time : timestamptz) (fresh : uuid) : World :=
  {| online := true; env := Props.server who time fresh |}.

Definition signed (u : string) : option UserData.t := Some (UserData.mk u).


Definition city_clinic : Providers.NewProvider :=
  {| Providers.new_name := "City Clinic";
     Providers.new_category := "Healthcare Provider";
     Providers.new_dataTypes := ["Lab Results"] |}.

(** A request that some handler of the two pages sends. *)
Definition issued_by_pages (q : Request) : Prop :=
  (exists userData op s, In q (requests (Providers.perform userData op s)))
  \/ (exists userData op s p,
        Consent.perform userData op s = Some p /\ In q (requests p)).

End Flow.


Import Schema Supabase Props.
Import Flow.

(** ** Row-level security *)

Lemma owner_expr_true (e : Env) (owner : uuid) :
  owner_expr e owner = true <-> auth_uid e = Some owner.
Proof.
  unfold owner_expr. destruct (auth_uid e) as [u|].
  - rewrite String.eqb_eq. split; congruence.
  - split; discriminate.
Qed.

Lemma rls_owner (e : Env) (cmd : Command) (r : ConsentRecord) :
  rls e cmd r = true <-> auth_uid e = Some (user_id r).
Proof. destruct cmd; apply owner_expr_true. Qed.

Lemma rls_stranger (e : Env) (cmd : Command) (r : ConsentRecord) (u : uuid) :
  auth_uid e = Some u -> user_id r <> u -> rls e cmd r = false.
Proof.
  intros Hu Hne. apply not_true_is_false. rewrite rls_owner. congruence.
Qed.

Lemma targets_owner (e : Env) (cmd : Command) (fs : list Filter) (r : ConsentRecord) :
  targets e cmd fs r = true -> auth_uid e = Some (user_id r).
Proof.
  unfold targets. rewrite !andb_true_iff. intros [[H _] _].
  now apply (rls_owner e SELECT).
Qed.

Lemma bind_ok {A B : Type} (r : Res A) (k : A -> Res B) (b : B) :
  bind r k = ok b -> exists a, r = ok a /\ k a = ok b.
Proof. destruct r as [a|x]; simpl; [eauto | discriminate]. Qed.

Lemma guard_ok (b : bool) (x : SqlError) (u : unit) :
  guard b x = ok u -> b = true.
Proof. destruct b; simpl; [reflexivity | discriminate]. Qed.

Lemma update_rows_shape (e : Env) (t t' : Table) (p : Patch) (fs : list Filter) :
  update_rows e t p fs = ok t' ->
  t' = t \/
  t' = map (fun r => if targets e UPDATE fs r
                     then update_updated_at_column e (apply_patch p r) else r) t.
Proof.
  unfold update_rows. intros H. apply bind_ok in H as [[] [_ H]].
  destruct (patch_is_empty p); inversion H; auto.
Qed.

Lemma filter_map_fixed {A : Type} (keep : A -> bool) (f : A -> A) (l : list A) :
  (forall a, keep a = true -> f a = a) ->
  (forall a, keep a = false -> keep (f a) = false) ->
  filter keep (map f l) = filter keep l.
Proof.
  intros Hfix Hout. induction l as [|a l IH]; simpl; [reflexivity|].
  destruct (keep a) eqn:Ha.
  - rewrite (Hfix a Ha), Ha, IH. reflexivity.
  - rewrite (Hout a Ha). exact IH.
Qed.

Lemma filter_filter_keep {A : Type} (keep q : A -> bool) (l : list A) :
  (forall a, keep a = true -> q a = true) ->
  filter keep (filter q l) = filter keep l.
Proof.
  intros Himp. induction l as [|a l IH]; simpl; [reflexivity|].
  destruct (q a) eqn:Hq; simpl.
  - rewrite IH. reflexivity.
  - destruct (keep a) eqn:Ha; [|exact IH].
    rewrite (Himp a Ha) in Hq. discriminate.
Qed.

Lemma candidate_owner (e : Env) (v : Values) (r : ConsentRecord) :
  candidate e v = ok r ->
  auth_uid e = Some (user_id r) /\ v_user_id v = Some (user_id r)
  /\ v_provider_id v = Some (provider_id r).
Proof.
  unfold candidate. intros H. apply bind_ok in H as [[] [_ H]].
  destruct (v_user_id v) as [u|]; [|discriminate].
  apply bind_ok in H as [[] [Hg H]]. apply guard_ok in Hg.
  destruct (v_provider_id v) as [p|]; [|discriminate].
  inversion H; subst; simpl. apply owner_expr_true in Hg. auto.
Qed.

Lemma candidate_stranger (e : Env) (v : Values) (u : uuid) :
  auth_uid e = Some u -> v_user_id v <> Some u ->
  candidate e v = err insufficient_privilege
  \/ candidate e v = err invalid_text_representation.
Proof.
  intros Hu Hne. destruct (candidate e v) as [r|x] eqn:Hc.
  - apply candidate_owner in Hc as [Ha [Hv _]]. congruence.
  - revert Hc. unfold candidate.
    destruct (opt_parses e (v_id v) && opt_parses e (v_user_id v)
              && opt_parses e (v_provider_id v)); simpl.
    + destruct (v_user_id v) as [u'|]; [|intros H; inversion H; auto].
      destruct (owner_expr e u') eqn:Ho; simpl.
      * apply owner_expr_true in Ho. congruence.
      * intros H; inversion H; auto.
    + intros H; inversion H; auto.
Qed.

(** C1.  A principal signed in as [u1] is denied on every record of another
    owner [u2]: the policy of each command admits a record exactly when the
    principal is its owner, a read returns no record of [u2], an update and a
    delete leave the records of [u2] as they are, and an insert or upsert of a
    candidate whose [user_id] is not [u1] is refused and changes nothing. *)
Theorem C1_owner_only (e : Env) (u1 u2 : uuid) :
  auth_uid e = Some u1 -> u1 <> u2 ->
  (forall cmd r, rls e cmd r = true <-> user_id r = u1)
  /\ (forall cmd r, user_id r = u2 -> rls e cmd r = false)
  /\ (forall t fs rows, select_rows e t fs = ok rows ->
        forall r, In r rows -> user_id r <> u2)
  /\ (forall t p fs t', update_rows e t p fs = ok t' ->
        filter (owned_by u2) t' = filter (owned_by u2) t)
  /\ (forall t fs t', delete_rows e t fs = ok t' ->
        filter (owned_by u2) t' = filter (owned_by u2) t)
  /\ (forall t v c, v_user_id v <> Some u1 ->
        (exists x, insert_row e t v = err x /\ upsert_row e t v c = err x)
        /\ forall q, q = insert v \/ q = upsert v (Some c) \/ q = upsert v None ->
             fst (exec e t q) = t /\ error (snd (exec e t q)) <> None).
Proof.
  intros Hu Hne.
  assert (Hforeign : forall cmd fs r, owned_by u2 r = true -> targets e cmd fs r = false).
  { intros cmd fs r Ho. apply String.eqb_eq in Ho.
    apply not_true_is_false. intros Ht. apply targets_owner in Ht. congruence. }
  repeat split.
  - intros H. apply rls_owner in H. congruence.
  - intros H. apply rls_owner. congruence.
  - intros cmd r Hr. apply (rls_stranger e cmd r u1 Hu). congruence.
  - intros t fs rows H r Hin Hr. unfold select_rows in H.
    apply bind_ok in H as [[] [_ H]]. inversion H; subst.
    apply filter_In in Hin as [_ Ht]. apply targets_owner in Ht. congruence.
  - intros t p fs t' H. apply update_rows_shape in H as [->| ->]; [reflexivity|].
    apply filter_map_fixed.
    + intros r Ho. now rewrite (Hforeign UPDATE fs r Ho).
    + intros r Ho. destruct (targets e UPDATE fs r); [|exact Ho]. exact Ho.
  - intros t fs t' H. unfold delete_rows in H.
    apply bind_ok in H as [[] [_ H]]. inversion H; subst.
    apply filter_filter_keep. intros r Ho. now rewrite (Hforeign DELETE fs r Ho).
  - destruct (candidate_stranger e v u1 Hu H) as [Hc|Hc];
      eexists; unfold insert_row, upsert_row; rewrite Hc; simpl; split; reflexivity.
  - destruct H0 as [-> | [-> | ->]]; simpl;
      unfold insert_row, upsert_row;
      destruct (candidate_stranger e v u1 Hu H) as [Hc|Hc]; rewrite Hc; reflexivity.
  - destruct H0 as [-> | [-> | ->]]; simpl;
      unfold insert_row, upsert_row;
      destruct (candidate_stranger e v u1 Hu H) as [Hc|Hc]; rewrite Hc; simpl;
      discriminate.
Qed.

(** ** The unique indexes *)

Lemma same_id_absent (r : ConsentRecord) (t : Table) :
  existsb (same_id r) t = false <-> ~ In (id r) (map id t).
Proof.
  rewrite <- not_true_iff_false, existsb_exists, in_map_iff.
  unfold same_id. split; intros H [x Hx]; apply H; exists x.
  - destruct Hx as [Hid Hin]. split; [exact Hin | now apply String.eqb_eq].
  - destruct Hx as [Hin Hid]. apply String.eqb_eq in Hid. auto.
Qed.

Lemma same_pair_true (r x : ConsentRecord) :
  same_pair r x = true <-> pair x = pair r.
Proof.
  unfold same_pair, pair. rewrite andb_true_iff, !String.eqb_eq.
  split; [intros [-> ->]; reflexivity | intros H; inversion H; auto].
Qed.

Lemma same_pair_absent (r : ConsentRecord) (t : Table) :
  existsb (same_pair r) t = false <-> ~ In (pair r) (map pair t).
Proof.
  rewrite <- not_true_iff_false, existsb_exists, in_map_iff.
  split; intros H [x Hx]; apply H; exists x.
  - destruct Hx as [Hp Hin]. split; [exact Hin | now apply same_pair_true].
  - destruct Hx as [Hin Hp]. apply same_pair_true in Hp. auto.
Qed.

Lemma unique_indexes_ok (others : Table) (r : ConsentRecord) (u : unit) :
  unique_indexes others r = ok u ->
  ~ In (id r) (map id others) /\ ~ In (pair r) (map pair others).
Proof.
  unfold unique_indexes. intros H. apply bind_ok in H as [[] [H1 H2]].
  apply guard_ok, negb_true_iff in H1. apply guard_ok, negb_true_iff in H2.
  split; [now apply same_id_absent | now apply same_pair_absent].
Qed.

Lemma constraints_ok (e : Env) (others : Table) (r : ConsentRecord) (u : unit) :
  constraints e others r = ok u ->
  ~ In (id r) (map id others) /\ ~ In (pair r) (map pair others).
Proof.
  unfold constraints. intros H. apply bind_ok in H as [[] [H _]].
  now apply unique_indexes_ok in H.
Qed.

Lemma split_conflict_some (same : ConsentRecord -> bool) (t before after : Table)
    (old : ConsentRecord) :
  split_conflict same t = Some (before, old, after) ->
  t = before ++ old :: after /\ same old = true
  /\ forall x, In x before -> same x = false.
Proof.
  revert before. induction t as [|x t IH]; simpl; intros before H; [discriminate|].
  destruct (same x) eqn:Hx.
  - inversion H; subst. simpl. repeat split; [exact Hx | contradiction].
  - destruct (split_conflict same t) as [[[b o] a]|]; [|discriminate].
    inversion H; subst. destruct (IH b eq_refl) as [-> [Ho Hb]].
    repeat split; [exact Ho|]. intros y [<-|Hy]; auto.
Qed.

Lemma split_conflict_none (same : ConsentRecord -> bool) (t : Table) :
  split_conflict same t = None <-> existsb same t = false.
Proof.
  induction t as [|x t IH]; simpl; [tauto|].
  destruct (same x); simpl.
  - split; discriminate.
  - destruct (split_conflict same t) as [[[b o] a]|].
    + split; [discriminate|]. intros H. apply IH in H. discriminate.
    + tauto.
Qed.

Lemma NoDup_map_insert {A B : Type} (f : A -> B) (l1 l2 : list A) (a : A) :
  NoDup (map f (l1 ++ l2)) -> ~ In (f a) (map f (l1 ++ l2)) ->
  NoDup (map f (l1 ++ a :: l2)).
Proof.
  rewrite !map_app. simpl. intros Hnd Hnin.
  apply (NoDup_Add (a := f a) (l := map f l1 ++ map f l2)).
  - apply Add_app.
  - auto.
Qed.

Lemma NoDup_map_append {A B : Type} (f : A -> B) (l : list A) (a : A) :
  NoDup (map f l) -> ~ In (f a) (map f l) -> NoDup (map f (l ++ [a])).
Proof.
  intros Hnd Hnin. apply NoDup_map_insert; rewrite app_nil_r; assumption.
Qed.

Lemma NoDup_map_remove {A B : Type} (f : A -> B) (l1 l2 : list A) (a : A) :
  NoDup (map f (l1 ++ a :: l2)) -> NoDup (map f (l1 ++ l2)).
Proof.
  rewrite !map_app. simpl. apply NoDup_remove_1.
Qed.

Lemma NoDup_map_filter {A B : Type} (f : A -> B) (keep : A -> bool) (l : list A) :
  NoDup (map f l) -> NoDup (map f (filter keep l)).
Proof.
  induction l as [|a l IH]; simpl; intros H; [constructor|].
  inversion H as [|? ? Hnin Hnd]; subst.
  destruct (keep a); simpl; auto.
  constructor; auto. intros Hin. apply Hnin.
  apply in_map_iff in Hin as [x [Hx Hin]]. apply filter_In in Hin as [Hin _].
  apply in_map_iff. eauto.
Qed.

Lemma insert_row_consistent (e : Env) (t t' : Table) (v : Values) :
  consistent t -> insert_row e t v = ok t' -> consistent t'.
Proof.
  intros [Hi Hp] H. unfold insert_row in H.
  apply bind_ok in H as [r [_ H]]. apply bind_ok in H as [[] [Hc H]].
  inversion H; subst. apply constraints_ok in Hc as [Hid Hpair].
  split; apply NoDup_map_append; assumption.
Qed.

Lemma update_rows_keys (e : Env) (t t' : Table) (p : Patch) (fs : list Filter) :
  update_rows e t p fs = ok t' -> map id t' = map id t /\ map pair t' = map pair t.
Proof.
  intros H. apply update_rows_shape in H as [->| ->]; [auto|].
  rewrite !map_map. split; apply map_ext; intros r;
    destruct (targets e UPDATE fs r); reflexivity.
Qed.

Lemma update_rows_consistent (e : Env) (t t' : Table) (p : Patch) (fs : list Filter) :
  consistent t -> update_rows e t p fs = ok t' -> consistent t'.
Proof.
  intros [Hi Hp] H. apply update_rows_keys in H as [Ei Ep].
  unfold consistent, unique_ids, unique_pairs. rewrite Ei, Ep. auto.
Qed.

Lemma delete_rows_consistent (e : Env) (t t' : Table) (fs : list Filter) :
  consistent t -> delete_rows e t fs = ok t' -> consistent t'.
Proof.
  intros [Hi Hp] H. unfold delete_rows in H. apply bind_ok in H as [[] [_ H]].
  inversion H; subst. split; apply NoDup_map_filter; assumption.
Qed.

Lemma upsert_row_consistent (e : Env) (t t' : Table) (v : Values) (c : ConflictTarget) :
  consistent t -> upsert_row e t v c = ok t' -> consistent t'.
Proof.
  intros [Hi Hp] H. unfold upsert_row in H.
  apply bind_ok in H as [r [_ H]].
  destruct (split_conflict (arbiter c r) t) as [[[before old] after]|] eqn:Hs.
  - apply split_conflict_some in Hs as [-> _].
    apply bind_ok in H as [[] [_ H]]. apply bind_ok in H as [[] [_ H]].
    apply bind_ok in H as [[] [Hu H]]. apply bind_ok in H as [[] [_ H]].
    inversion H; subst. apply unique_indexes_ok in Hu as [Hid Hpair].
    split; apply NoDup_map_insert; try assumption;
      [apply (NoDup_map_remove id _ _ old) | apply (NoDup_map_remove pair _ _ old)];
      assumption.
  - apply bind_ok in H as [[] [Hc H]]. inversion H; subst.
    apply constraints_ok in Hc as [Hid Hpair].
    split; apply NoDup_map_append; assumption.
Qed.

Lemma written_fst (t : Table) (r : Res Table) :
  fst (written t r) = match r with ok t' => t' | err _ => t end.
Proof. destruct r; reflexivity. Qed.

Lemma exec_consistent (e : Env) (t : Table) (q : Request) :
  consistent t -> consistent (fst (exec e t q)).
Proof.
  intros Hc. destruct q as [v|v c|p fs|fs|fs]; simpl.
  - rewrite written_fst. destruct (insert_row e t v) eqn:H; [|exact Hc].
    eapply insert_row_consistent; eassumption.
  - rewrite written_fst.
    destruct (upsert_row e t v (default on_primary_key c)) eqn:H; [|exact Hc].
    eapply upsert_row_consistent; eassumption.
  - rewrite written_fst. destruct (update_rows e t p fs) eqn:H; [|exact Hc].
    eapply update_rows_consistent; eassumption.
  - rewrite written_fst. destruct (delete_rows e t fs) eqn:H; [|exact Hc].
    eapply delete_rows_consistent; eassumption.
  - destruct (select_rows e t fs); exact Hc.
Qed.

(** At most one record per [(user_id, provider_id)] pair, and per [id], in
    every table the server can reach. *)
Lemma reachable_consistent (t : Table) : reachable t -> consistent t.
Proof.
  induction 1 as [|e t q _ IH].
  - split; constructor.
  - now apply exec_consistent.
Qed.

Lemma candidate_parsed (e : Env) (v : Values) (u p : uuid) :
  auth_uid e = Some u -> v_user_id v = Some u -> v_provider_id v = Some p ->
  opt_parses e (v_id v) = true -> uuid_in e u = true -> uuid_in e p = true ->
  candidate e v =
    ok {| id := default (gen_random_uuid e) (v_id v);
          user_id := u;
          provider_id := p;
          lab_results := default false (v_lab_results v);
          medications := default false (v_medications v);
          fitness_data := default false (v_fitness_data v);
          approved := default false (v_approved v);
          created_at := default (now e) (v_created_at v);
          updated_at := default (now e) (v_updated_at v) |}.
Proof.
  intros Ha Hu Hp Hi Pu Pp. unfold candidate. rewrite Hu, Hp, Hi. simpl.
  rewrite Pu, Pp. simpl. apply owner_expr_true in Ha. rewrite Ha. reflexivity.
Qed.

Lemma existing_pair (t : Table) (r x : ConsentRecord) :
  In x t -> pair x = pair r -> existsb (same_pair r) t = true.
Proof.
  intros Hin Hp. apply existsb_exists. exists x. split; [exact Hin|].
  now apply same_pair_true.
Qed.

(** A second insert for a pair that is already there is refused by a unique
    index and changes nothing. *)
Lemma insert_existing_pair (e : Env) (t : Table) (v : Values) (u p : uuid)
    (x : ConsentRecord) :
  auth_uid e = Some u -> v_user_id v = Some u -> v_provider_id v = Some p ->
  opt_parses e (v_id v) = true -> uuid_in e u = true -> uuid_in e p = true ->
  In x t -> user_id x = u -> provider_id x = p ->
  exists ix,
    exec e t (insert v)
    = (t, {| data := None; error := Some (unique_violation ix) |}).
Proof.
  intros Ha Hu Hp Hi Pu Pp Hin Hxu Hxp. simpl. unfold insert_row.
  rewrite (candidate_parsed e v u p Ha Hu Hp Hi Pu Pp). simpl.
  unfold constraints, unique_indexes.
  match goal with |- context [existsb (same_id ?r) t] =>
    destruct (existsb (same_id r) t); simpl;
    [ eexists; reflexivity
    | rewrite (existing_pair t r x Hin); [simpl; eexists; reflexivity|] ]
  end.
  unfold pair. simpl. congruence.
Qed.

Lemma split_conflict_first (same : ConsentRecord -> bool) (before after : Table)
    (old : ConsentRecord) :
  same old = true -> (forall x, In x before -> same x = false) ->
  split_conflict same (before ++ old :: after) = Some (before, old, after).
Proof.
  intros Ho. induction before as [|b before IH]; simpl; intros Hb.
  - now rewrite Ho.
  - rewrite (Hb b (or_introl eq_refl)), IH; auto.
Qed.

(** Arbitrated by the unique index on the pair, an upsert for a pair that is
    there updates the row in place. *)
Lemma upsert_on_user_provider_merges (e : Env) (before after : Table)
    (old : ConsentRecord) (v : Values) (u p : uuid) :
  consistent (before ++ old :: after) ->
  auth_uid e = Some u -> v_user_id v = Some u -> v_provider_id v = Some p ->
  v_id v = None -> uuid_in e u = true -> uuid_in e p = true ->
  user_id old = u -> provider_id old = p ->
  upsert_row e (before ++ old :: after) v on_user_provider
  = ok (before ++ update_updated_at_column e (excluded v old) :: after).
Proof.
  intros [Hi Hp] Ha Hu Hvp Hid Pu Pp Hou Hop. unfold upsert_row.
  rewrite (candidate_parsed e v u p Ha Hu Hvp); [|now rewrite Hid|exact Pu|exact Pp].
  cbn [bind arbiter]. rewrite split_conflict_first.
  - assert (Hr : rls e UPDATE old = true) by (apply rls_owner; congruence).
    rewrite Hr. cbn [bind guard].
    assert (Hn : rls e UPDATE (update_updated_at_column e (excluded v old)) = true).
    { apply rls_owner. simpl. rewrite Hu. simpl. exact Ha. }
    rewrite Hn. cbn [bind guard]. unfold unique_indexes.
    unfold unique_ids in Hi. unfold unique_pairs in Hp.
    rewrite map_app in Hi, Hp. simpl in Hi, Hp.
    apply NoDup_remove_2 in Hi. apply NoDup_remove_2 in Hp.
    rewrite <- map_app in Hi, Hp.
    match goal with |- context [existsb (same_id ?r) ?l] =>
      replace (existsb (same_id r) l) with false
        by (symmetry; apply same_id_absent; simpl; rewrite Hid; exact Hi);
      replace (existsb (same_pair r) l) with false
        by (symmetry; apply same_pair_absent; unfold pair at 1; simpl;
            rewrite Hu, Hvp; simpl; unfold pair in Hp; rewrite Hou, Hop in Hp; exact Hp)
    end.
    simpl. rewrite Hu. simpl. rewrite Hou, String.eqb_refl. reflexivity.
  - simpl. apply same_pair_true. unfold pair. simpl. congruence.
  - intros x Hx. apply not_true_is_false. intros Hs.
    apply same_pair_true in Hs. simpl in Hs.
    unfold unique_pairs in Hp. rewrite map_app in Hp. simpl in Hp.
    apply NoDup_remove_2 in Hp. apply Hp. apply in_or_app. left.
    apply in_map_iff. exists x. split; [|exact Hx].
    rewrite Hs. unfold pair. simpl. congruence.
Qed.

(** C2.  The permissions handler upserts without a conflict target, so the
    primary key arbitrates; the payload carries no [id], the generated one
    meets no row, and the statement goes on as an insert.  For a pair that is
    already there the unique index on the pair refuses it: the table is
    unchanged and the handler logs the error. *)
Theorem C2_upsert_existing_pair_refused (w : World) (t : Table)
    (userData : option UserData.t) (uid pid : string)
    (permissions : Providers.Permissions) (s : Providers.State) (x : ConsentRecord) :
  online w = true ->
  UserData.signed_in userData = Some uid ->
  auth_uid (env w) = Some uid ->
  uuid_in (env w) uid = true -> uuid_in (env w) pid = true ->
  ~ In (gen_random_uuid (env w)) (map id t) ->
  In x t -> user_id x = uid -> provider_id x = pid ->
  exec (env w) t (upsert (Providers.permission_values uid pid permissions) None)
  = (t, {| data := None;
           error := Some (unique_violation idx_user_provider_consent_user_provider) |})
  /\ table (run w t (Providers.handleUpdatePermissions userData pid permissions s)) = t
  /\ log (run w t (Providers.handleUpdatePermissions userData pid permissions s))
     = [console_error "Error updating provider permissions:"].
Proof.
  intros Hon Hs Ha Pu Pp Hfresh Hin Hxu Hxp.
  assert (Hexec :
    exec (env w) t (upsert (Providers.permission_values uid pid permissions) None)
    = (t, {| data := None;
             error := Some (unique_violation idx_user_provider_consent_user_provider) |})).
  { cbn [exec default]. unfold upsert_row.
    rewrite (candidate_parsed (env w)
               (Providers.permission_values uid pid permissions) uid pid
               Ha eq_refl eq_refl eq_refl Pu Pp).
    cbn [bind arbiter].
    match goal with |- context [split_conflict (same_id ?r) t] => set (cand := r) end.
    assert (Hid : existsb (same_id cand) t = false) by (now apply same_id_absent).
    assert (Hpair : existsb (same_pair cand) t = true)
      by (apply (existing_pair t cand x Hin); unfold pair; simpl; congruence).
    apply split_conflict_none in Hid as Hsplit. rewrite Hsplit.
    unfold constraints, unique_indexes. rewrite Hid, Hpair. reflexivity. }
  split; [exact Hexec|].
  unfold Providers.handleUpdatePermissions. rewrite Hs. simpl.
  unfold send. rewrite Hon, Hexec. simpl. auto.
Qed.

(** ** The realtime handler *)

Lemma replace_by_id_twice (new : ConsentRecord) (m : Consent.Mirror) :
  let f := fun consent => if String.eqb (id consent) (id new) then new else consent in
  map f (map f m) = map f m.
Proof.
  intros f. rewrite map_map. apply map_ext. intros c. unfold f.
  destruct (String.eqb (id c) (id new)) eqn:Hc.
  - now rewrite String.eqb_refl.
  - now rewrite Hc.
Qed.

Lemma filter_twice {A : Type} (keep : A -> bool) (l : list A) :
  filter keep (filter keep l) = filter keep l.
Proof. apply filter_filter_keep. auto. Qed.

Lemma present_false_map (new : ConsentRecord) (m : Consent.Mirror) :
  present (id new) m = false ->
  map (fun consent => if String.eqb (id consent) (id new) then new else consent) m = m.
Proof.
  unfold present. induction m as [|c m IH]; simpl; [reflexivity|].
  intros H. apply orb_false_iff in H as [Hc Hm]. now rewrite Hc, IH.
Qed.

(** C3.  Applying an UPDATE or a DELETE event twice gives the mirror that
    applying it once gives.  An INSERT event is appended each time it is
    applied, so the second application adds a second copy. *)
Theorem C3_replay (m : Consent.Mirror) :
  (forall new,
      Consent.on_postgres_changes (Consent.UPDATE new)
        (Consent.on_postgres_changes (Consent.UPDATE new) m)
      = Consent.on_postgres_changes (Consent.UPDATE new) m)
  /\ (forall old_id,
      Consent.on_postgres_changes (Consent.DELETE old_id)
        (Consent.on_postgres_changes (Consent.DELETE old_id) m)
      = Consent.on_postgres_changes (Consent.DELETE old_id) m)
  /\ (forall new,
      Consent.on_postgres_changes (Consent.INSERT new)
        (Consent.on_postgres_changes (Consent.INSERT new) m)
      = Consent.on_postgres_changes (Consent.INSERT new) m ++ [new]).
Proof.
  repeat split; intros; simpl.
  - apply replace_by_id_twice.
  - apply filter_twice.
Qed.

(** C3, as stated, fails for an INSERT event on the empty mirror. *)
Lemma C3_insert_twice :
  Consent.on_postgres_changes (Consent.INSERT (consent row1 alice clinic false false false false 0 0))
    (Consent.on_postgres_changes
       (Consent.INSERT (consent row1 alice clinic false false false false 0 0)) [])
  <> Consent.on_postgres_changes
       (Consent.INSERT (consent row1 alice clinic false false false false 0 0)) [].
Proof. simpl. discriminate. Qed.

(** C4.  The handler and the merge by id agree on an INSERT event for an id
    that is absent, on an UPDATE event for an id that is present, and on every
    DELETE event.  Then the record that came in is in the mirror, every
    record with its id is that record, and after a DELETE no record with the
    id is left.  Off these cases the handler does not look the id up: an
    INSERT event for a present id appends a second record with that id, and an
    UPDATE event for an absent id leaves the mirror as it is. *)
Theorem C4_by_id (m : Consent.Mirror) :
  (forall new, present (id new) m = false ->
      Consent.on_postgres_changes (Consent.INSERT new) m
      = merge_by_id (Consent.INSERT new) m
      /\ In new (Consent.on_postgres_changes (Consent.INSERT new) m))
  /\ (forall new, present (id new) m = true ->
      Consent.on_postgres_changes (Consent.UPDATE new) m
      = merge_by_id (Consent.UPDATE new) m
      /\ In new (Consent.on_postgres_changes (Consent.UPDATE new) m)
      /\ forall c, In c (Consent.on_postgres_changes (Consent.UPDATE new) m) ->
           id c = id new -> c = new)
  /\ (forall old_id,
      Consent.on_postgres_changes (Consent.DELETE old_id) m
      = merge_by_id (Consent.DELETE old_id) m
      /\ present old_id (Consent.on_postgres_changes (Consent.DELETE old_id) m) = false)
  /\ (forall new, present (id new) m = true ->
      Consent.on_postgres_changes (Consent.INSERT new) m = m ++ [new])
  /\ (forall new, present (id new) m = false ->
      Consent.on_postgres_changes (Consent.UPDATE new) m = m).
Proof.
  split; [|split; [|split; [|split]]].
  - intros new H. simpl. rewrite H. split; [reflexivity|].
    apply in_or_app. right. now left.
  - intros new H. simpl. rewrite H. split; [reflexivity|]. split.
    + unfold present in H. apply existsb_exists in H as [c [Hin Hc]].
      apply in_map_iff. exists c. now rewrite Hc.
    + intros c Hin Hid. apply in_map_iff in Hin as [c0 [Hc0 _]].
      destruct (String.eqb (id c0) (id new)) eqn:E; [congruence|].
      subst c0. apply String.eqb_neq in E. contradiction.
  - intros old_id. simpl. split; [reflexivity|].
    unfold present. apply not_true_is_false. intros H.
    apply existsb_exists in H as [c [Hin Hc]].
    apply filter_In in Hin as [_ Hk]. rewrite Hc in Hk. discriminate.
  - reflexivity.
  - intros new H. now apply present_false_map.
Qed.

(** C4, as stated, fails for an UPDATE event on the empty mirror: the record
    is not inserted. *)
Lemma C4_update_absent :
  Consent.on_postgres_changes
    (Consent.UPDATE (consent row1 alice clinic true false false true 0 5)) []
  <> merge_by_id (Consent.UPDATE (consent row1 alice clinic true false false true 0 5)) [].
Proof. simpl. discriminate. Qed.

(** ... and for an INSERT event whose id is in the mirror: the record is not
    replaced, a second one is added. *)
Lemma insert_present_duplicates :
  Consent.on_postgres_changes
    (Consent.INSERT (consent row1 alice clinic true false false true 0 5))
    [consent row1 alice clinic false false false false 0 0]
  = [consent row1 alice clinic false false false false 0 0;
     consent row1 alice clinic true false false true 0 5].
Proof. reflexivity. Qed.

(** ** The [updated_at] trigger *)



Lemma insert_row_shape (e : Env) (t t' : Table) (v : Values) :
  insert_row e t v = ok t' -> exists x, candidate e v = ok x /\ t' = t ++ [x].
Proof.
  unfold insert_row. intros H. apply bind_ok in H as [x [Hx H]].
  apply bind_ok in H as [[] [_ H]]. inversion H. eauto.
Qed.



(** A successful update stamps every row it targets, whatever the patch
    sets, [updated_at] included. *)
Lemma update_stamps_targets (e : Env) (t : Table) (p : Patch) (fs : list Filter)
    (k : nat) (r : ConsentRecord) :
  filters_parse e fs = true -> patch_is_empty p = false ->
  nth_error t k = Some r -> targets e UPDATE fs r = true ->
  nth_error (fst (exec e t (update p fs))) k
  = Some (update_updated_at_column e (apply_patch p r)).
Proof.
  intros Hf Hp Hk Ht. cbn [exec]. unfold update_rows. rewrite Hf, Hp.
  cbn [guard bind written fst]. rewrite nth_error_map, Hk. cbn [option_map].
  now rewrite Ht.
Qed.





Lemma upsert_row_conflict (e : Env) (t t' : Table) (v : Values) (c : ConflictTarget)
    (x old : ConsentRecord) (before after : Table) :
  candidate e v = ok x ->
  split_conflict (arbiter c x) t = Some (before, old, after) ->
  upsert_row e t v c = ok t' ->
  t' = before ++ update_updated_at_column e (excluded v old) :: after.
Proof.
  intros Hx Hs H. unfold upsert_row in H. rewrite Hx in H. cbn [bind] in H.
  rewrite Hs in H.
  apply bind_ok in H as [[] [_ H]]. apply bind_ok in H as [[] [_ H]].
  apply bind_ok in H as [[] [_ H]]. apply bind_ok in H as [[] [_ H]].
  now inversion H.
Qed.

Lemma upsert_row_no_conflict (e : Env) (t t' : Table) (v : Values) (c : ConflictTarget)
    (x : ConsentRecord) :
  candidate e v = ok x ->
  split_conflict (arbiter c x) t = None ->
  upsert_row e t v c = ok t' -> t' = t ++ [x].
Proof.
  intros Hx Hs H. unfold upsert_row in H. rewrite Hx in H. cbn [bind] in H.
  rewrite Hs in H. apply bind_ok in H as [[] [_ H]]. now inversion H.
Qed.




(** A row that is created without an explicit [updated_at] starts with the
    time of its creation. *)
Lemma candidate_stamp (e : Env) (v : Values) (r : ConsentRecord) :
  v_updated_at v = None -> candidate e v = ok r -> updated_at r = now e.
Proof.
  unfold candidate. intros Hv H. apply bind_ok in H as [[] [_ H]].
  destruct (v_user_id v); [|discriminate].
  apply bind_ok in H as [[] [_ H]].
  destruct (v_provider_id v); [|discriminate].
  inversion H. simpl. now rewrite Hv.
Qed.

(** ** Failures of the store in the handlers *)

Lemma log_only_run {S : Type} (w : World) (t : Table) (s : S) (q : Request)
    (m1 m2 : string) :
  only_logged w t (await s q (log_only m1 m2)).
Proof.
  unfold only_logged, looks_successful, store_failed, outcome, run. simpl.
  destruct (send w t q) as [t' o]. simpl.
  destruct o as [[d [x|]]|]; simpl; intros H; try discriminate; eauto.
Qed.

Lemma done_run {S : Type} (w : World) (t : Table) (s : S) (l : list LogEntry) :
  only_logged w t (done s l).
Proof. unfold only_logged, store_failed. simpl. discriminate. Qed.

(** C6.  When the store operation of a mutation fails, be it add provider,
    update permissions, delete provider, access request, approve or deny, the
    handler writes one [console.error] line and nothing else shows it: the
    page is left in the state a successful operation leaves it in, and the
    handler hands nothing back to its caller. *)
Theorem C6_failure_only_logged (userData : option UserData.t) (w : World) (t : Table) :
  (forall op s, only_logged w t (Providers.perform userData op s))
  /\ (forall data s, only_logged w t (Consent.handleAccessRequest userData data s))
  /\ (forall consent s, only_logged w t (Consent.approve consent s))
  /\ (forall consent s, only_logged w t (Consent.deny consent s)).
Proof.
  split; [|split; [|split]].
  - intros [providerId lastSync newProvider|providerId permissions|providerId] s;
      simpl;
      unfold Providers.handleAddProvider, Providers.handleUpdatePermissions,
        Providers.handleDeleteProvider;
      destruct (UserData.signed_in userData);
      (apply log_only_run || apply done_run).
  - intros data s. unfold Consent.handleAccessRequest.
    destruct (UserData.signed_in userData); [apply log_only_run | apply done_run].
  - intros consent s. apply log_only_run.
  - intros consent s. apply log_only_run.
Qed.

(** C6, as stated, fails when a provider is added while the server cannot be
    reached: the insert throws, and the page shows the provider as it does
    after an insert that went through. *)
Lemma C6_add_provider_offline :
  let w := {| online := false; env := server (Some alice) 10 row1 |} in
  let p := Providers.handleAddProvider (Some (UserData.mk alice)) "0.k3j9x0q2a"
             "2024-03-16T08:00:00Z"
             {| Providers.new_name := "City Clinic";
                Providers.new_category := "Healthcare Provider";
                Providers.new_dataTypes := ["Lab Results"] |}
             Providers.initial in
  ~ (store_failed w [] p = true -> ~ looks_successful w [] p).
Proof.
  intros w p H. apply H; reflexivity.
Qed.

(** ** Creating, approving and listing *)

Lemma known_user (u : uuid) (users : list uuid) :
  In u users -> existsb (String.eqb u) users = true.
Proof.
  intros H. apply existsb_exists. exists u. split; [exact H | apply String.eqb_refl].
Qed.

Lemma constraints_new (e : Env) (t : Table) (r : ConsentRecord) :
  ~ In (id r) (map id t) -> ~ In (pair r) (map pair t) ->
  In (user_id r) (auth_users e) ->
  constraints e t r = ok tt.
Proof.
  intros Hid Hpair Hu. unfold constraints, unique_indexes, references_auth_users.
  apply same_id_absent in Hid. apply same_pair_absent in Hpair.
  rewrite Hid, Hpair, (known_user _ _ Hu). reflexivity.
Qed.

(** An insert or upsert for a new pair by its owner appends the proposed row. *)
Lemma exec_creates (e : Env) (t : Table) (v : Values) (u p : uuid) :
  auth_uid e = Some u -> v_id v = None ->
  v_user_id v = Some u -> v_provider_id v = Some p ->
  uuid_in e u = true -> uuid_in e p = true -> In u (auth_users e) ->
  ~ In (gen_random_uuid e) (map id t) -> ~ In (u, p) (map pair t) ->
  let r := {| id := gen_random_uuid e;
              user_id := u;
              provider_id := p;
              lab_results := default false (v_lab_results v);
              medications := default false (v_medications v);
              fitness_data := default false (v_fitness_data v);
              approved := default false (v_approved v);
              created_at := default (now e) (v_created_at v);
              updated_at := default (now e) (v_updated_at v) |} in
  exec e t (insert v) = (t ++ [r], {| data := None; error := None |})
  /\ exec e t (upsert v None) = (t ++ [r], {| data := None; error := None |}).
Proof.
  intros Ha Hid Hu Hp Pu Pp Hin Hfresh Habsent r.
  assert (Hc : candidate e v = ok r).
  { rewrite (candidate_parsed e v u p Ha Hu Hp); [|now rewrite Hid|exact Pu|exact Pp].
    unfold r. now rewrite Hid. }
  assert (Hk : constraints e t r = ok tt) by (now apply constraints_new).
  split; cbn [exec default]; unfold insert_row, upsert_row; rewrite Hc; cbn [bind arbiter].
  - now rewrite Hk.
  - assert (Hs : split_conflict (same_id r) t = None)
      by (apply split_conflict_none; now apply same_id_absent).
    now rewrite Hs, Hk.
Qed.

(** C7.  For a pair with no record, the permissions handler called with only
    [labResults: true] creates the record with [lab_results] true,
    [medications] and [fitness_data] false by column default, and [approved]
    true: the handler writes [approved: true] with every upsert. *)
Theorem C7_upsert_creates (w : World) (t : Table) (userData : option UserData.t)
    (uid pid : string) (s : Providers.State) :
  online w = true ->
  UserData.signed_in userData = Some uid ->
  auth_uid (env w) = Some uid ->
  uuid_in (env w) uid = true -> uuid_in (env w) pid = true ->
  In uid (auth_users (env w)) ->
  ~ In (gen_random_uuid (env w)) (map id t) ->
  ~ In (uid, pid) (map pair t) ->
  let r := run w t (Providers.handleUpdatePermissions userData pid lab_results_only s) in
  table r
  = t ++ [ {| id := gen_random_uuid (env w);
              user_id := uid;
              provider_id := pid;
              lab_results := true;
              medications := false;
              fitness_data := false;
              approved := true;
              created_at := now (env w);
              updated_at := now (env w) |} ]
  /\ log r = [].
Proof.
  intros Hon Hs Ha Pu Pp Hin Hfresh Habsent.
  destruct (exec_creates (env w) t
              (Providers.permission_values uid pid lab_results_only) uid pid
              Ha eq_refl eq_refl eq_refl Pu Pp Hin Hfresh Habsent) as [_ He].
  unfold Providers.handleUpdatePermissions. rewrite Hs.
  unfold run, send. rewrite Hon, He. simpl. auto.
Qed.

(** C7, as stated, fails on the empty table: the record the handler creates
    for [labResults: true] alone is approved. *)
Lemma C7_created_approved :
  let w := {| online := true; env := server (Some alice) 7 row1 |} in
  let r := run w []
             (Providers.handleUpdatePermissions (Some (UserData.mk alice)) clinic
                lab_results_only Providers.initial) in
  ~ (exists row, table r = [row]
                 /\ lab_results row = true /\ Schema.medications row = false
                 /\ fitness_data row = false /\ approved row = false).
Proof.
  intros w r [row [Ht [_ [_ [_ Ha]]]]]. vm_compute in Ht.
  inversion Ht; subst row. discriminate Ha.
Qed.

(** The column default alone would leave a created record unapproved: an
    upsert that names only [lab_results] creates it with [approved] false. *)
Lemma upsert_without_approved :
  fst (exec (server (Some alice) 7 row1) []
         (upsert {| v_id := None; v_user_id := Some alice; v_provider_id := Some clinic;
                    v_lab_results := Some true; v_medications := None;
                    v_fitness_data := None; v_approved := None;
                    v_created_at := None; v_updated_at := None |} None))
  = [consent row1 alice clinic true false false false 7 7].
Proof. vm_compute. reflexivity. Qed.

Lemma map_fixed {A : Type} (f : A -> A) (l : list A) :
  (forall a, In a l -> f a = a) -> map f l = l.
Proof.
  intros H. induction l as [|a l IH]; simpl; [reflexivity|].
  rewrite (H a (or_introl eq_refl)), IH; [reflexivity|].
  intros b Hb. apply H. now right.
Qed.

Lemma filter_none {A : Type} (keep : A -> bool) (l : list A) :
  (forall a, In a l -> keep a = false) -> filter keep l = [].
Proof.
  intros H. induction l as [|a l IH]; simpl; [reflexivity|].
  rewrite (H a (or_introl eq_refl)). apply IH. intros b Hb. apply H. now right.
Qed.


(** The scenario on a table that holds a record of another user: the listing
    shows the owner her one record and not the other user's. *)
Lemma scenario_listing :
  let t := [consent row2 bob clinic true true true true 1 1] in
  let t1 := fst (exec (server (Some alice) 3 row1) t
                   (insert (Providers.add_values alice clinic))) in
  let t2 := fst (exec (server (Some alice) 4 row2) t1
                   (update Consent.approve_patch [eq_filter col_id row1])) in
  data (snd (exec (server (Some alice) 5 row2) t2 (select [eq_filter col_user_id alice])))
  = Some [consent row1 alice clinic false false false true 3 4].
Proof. vm_compute. reflexivity. Qed.

(** ** Without a signed-in user *)

Lemma session_idle (userData : option UserData.t) (ops : list (Consent.Op * World))
    (c c' : Consent.Session) :
  UserData.signed_in userData = None -> Consent.mirror c = [] ->
  Consent.session userData ops c = Some c' ->
  Consent.issued c' = Consent.issued c /\ Consent.store c' = Consent.store c
  /\ Consent.mirror c' = [].
Proof.
  intros Hs. revert c. induction ops as [|[op w] ops IH]; intros c Hm H.
  - simpl in H. inversion H; subst. auto.
  - simpl in H. rewrite Hm in H.
    destruct op as [|payload|data|i|i]; simpl in H.
    + unfold Consent.fetchConsentRecords in H. rewrite Hs in H. simpl in H.
      apply IH in H; [|reflexivity]. simpl in H. now rewrite app_nil_r in H.
    + rewrite Hs in H. discriminate.
    + unfold Consent.handleAccessRequest in H. rewrite Hs in H. simpl in H.
      apply IH in H; [|reflexivity]. simpl in H. now rewrite app_nil_r in H.
    + destruct i; discriminate.
    + destruct i; discriminate.
Qed.

Lemma providers_session_idle (userData : option UserData.t)
    (ops : list (Providers.Op * World)) (c : Providers.Session) :
  UserData.signed_in userData = None ->
  Providers.issued (Providers.session userData ops c) = Providers.issued c
  /\ Providers.store (Providers.session userData ops c) = Providers.store c
  /\ Providers.logged (Providers.session userData ops c) = Providers.logged c.
Proof.
  intros Hs. revert c. induction ops as [|[op w] ops IH]; intros c; [simpl; auto|].
  simpl.
  destruct op as [providerId lastSync newProvider|providerId permissions|providerId];
    simpl;
    unfold Providers.handleAddProvider, Providers.handleUpdatePermissions,
      Providers.handleDeleteProvider;
    rewrite Hs; simpl;
    match goal with |- context [Providers.session userData ops ?c1] =>
      destruct (IH c1) as [H1 [H2 H3]]; rewrite H1, H2, H3; simpl
    end;
    rewrite !app_nil_r; auto.
Qed.

(** C8.  Without a signed-in user no operation of either page sends a request
    and none fails.  On the consent page the fetch returns at once, no
    realtime channel is opened, the access request returns after a log line,
    and the mirror stays empty, so no Approve or Deny button exists; whatever
    is done, nothing is issued and the table is untouched.  On the providers
    page every handler changes the local list only. *)
Theorem C8_no_identity (userData : option UserData.t) :
  UserData.signed_in userData = None ->
  (forall ops t c',
      Consent.session userData ops (fresh_session t) = Some c' ->
      Consent.issued c' = [] /\ Consent.store c' = t /\ Consent.mirror c' = [])
  /\ (forall s, requests (Consent.fetchConsentRecords userData s) = [])
  /\ (forall data s, requests (Consent.handleAccessRequest userData data s) = [])
  /\ (forall payload s, Consent.perform userData (Consent.op_remote payload) s = None)
  /\ (forall ops s t,
      let c' := Providers.session userData ops (fresh_providers_session s t) in
      Providers.issued c' = [] /\ Providers.store c' = t /\ Providers.logged c' = [])
  /\ (forall op s, requests (Providers.perform userData op s) = []).
Proof.
  intros Hs. split; [|split; [|split; [|split; [|split]]]].
  - intros ops t c' H. now apply (session_idle userData ops (fresh_session t) c' Hs).
  - intros s. unfold Consent.fetchConsentRecords. now rewrite Hs.
  - intros data s. unfold Consent.handleAccessRequest. now rewrite Hs.
  - intros payload s. simpl. now rewrite Hs.
  - intros ops s t.
    apply (providers_session_idle userData ops (fresh_providers_session s t) Hs).
  - intros [providerId lastSync newProvider|providerId permissions|providerId] s;
      simpl;
      unfold Providers.handleAddProvider, Providers.handleUpdatePermissions,
        Providers.handleDeleteProvider;
      now rewrite Hs.
Qed.

(** A provider id that the column type does not accept stops an insert or an
    upsert before any policy or index is consulted. *)
Lemma unparsed_provider_refused (e : Env) (t : Table) (v : Values) (p : string)
    (c : ConflictTarget) :
  v_provider_id v = Some p -> uuid_in e p = false ->
  insert_row e t v = err invalid_text_representation
  /\ upsert_row e t v c = err invalid_text_representation.
Proof.
  intros Hp Hu. unfold insert_row, upsert_row, candidate. rewrite Hp. simpl.
  rewrite Hu, !andb_false_r. simpl. auto.
Qed.

(** The placeholder of the access request and the ids the providers page
    draws are not in the hyphenated form. *)
Lemma placeholder_not_hyphenated :
  hyphenated_uuid "generic-provider" = false
  /\ hyphenated_uuid "k3j9x0q2a" = false
  /\ hyphenated_uuid clinic = true.
Proof. repeat split; reflexivity. Qed.

(** ** Texts that are not uuids *)

Lemma uuid_shape_length (s : string) (i : nat) :
  uuid_shape i s = true -> (i + String.length s = 36)%nat.
Proof.
  revert i. induction s as [|c s IH]; simpl; intros i H.
  - apply Nat.eqb_eq in H. lia.
  - apply andb_true_iff in H as [_ H]. apply IH in H. lia.
Qed.

(** The sample server reads only texts of 36 characters as uuids. *)
Lemma server_reads_uuids (who : option uuid) (time : timestamptz) (fresh : uuid) :
  reads_uuids (server who time fresh).
Proof.
  intros s H. apply (uuid_shape_length s 0) in H. simpl in H. lia.
Qed.

Lemma candidate_provider_parses (e : Env) (v : Values) (x : ConsentRecord) :
  candidate e v = ok x ->
  uuid_in e (provider_id x) = true /\ v_provider_id v = Some (provider_id x).
Proof.
  intros H. pose proof (candidate_owner e v x H) as [_ [_ Hp]].
  split; [|exact Hp]. unfold candidate in H.
  apply bind_ok in H as [[] [Hg _]]. apply guard_ok in Hg.
  rewrite !andb_true_iff in Hg. destruct Hg as [_ Hg].
  rewrite Hp in Hg. exact Hg.
Qed.

(** Every provider id the table comes to hold was read as a uuid by the
    server. *)
Lemma exec_provider_ids (Q : string -> Prop) (e : Env) (t : Table) (q : Request) :
  (forall s, uuid_in e s = true -> Q s) ->
  (forall r, In r t -> Q (provider_id r)) ->
  forall r, In r (fst (exec e t q)) -> Q (provider_id r).
Proof.
  intros HQ Ht r Hin.
  destruct q as [v|v c|p fs|fs|fs]; cbn [exec] in Hin; rewrite ?written_fst in Hin.
  - destruct (insert_row e t v) as [t'|] eqn:H; [|auto].
    apply insert_row_shape in H as [x [Hx ->]].
    apply in_app_or in Hin as [Hin|[<-|[]]]; [auto|].
    apply HQ. now apply candidate_provider_parses in Hx.
  - set (c' := default on_primary_key c) in *.
    destruct (upsert_row e t v c') as [t'|] eqn:H; [|auto].
    destruct (candidate e v) as [x|y] eqn:Hx;
      [|unfold upsert_row in H; rewrite Hx in H; discriminate].
    apply candidate_provider_parses in Hx as Hp. destruct Hp as [Hp Hv].
    destruct (split_conflict (arbiter c' x) t) as [[[before old] after]|] eqn:Hs.
    + rewrite (upsert_row_conflict e t t' v c' x old before after Hx Hs H) in Hin.
      apply split_conflict_some in Hs as [Hsplit _].
      apply in_app_or in Hin as [Hin|[<-|Hin]].
      * apply Ht. rewrite Hsplit. apply in_or_app. now left.
      * simpl. rewrite Hv. simpl. now apply HQ.
      * apply Ht. rewrite Hsplit. apply in_or_app. right. now right.
    + rewrite (upsert_row_no_conflict e t t' v c' x Hx Hs H) in Hin.
      apply in_app_or in Hin as [Hin|[<-|[]]]; [auto | now apply HQ].
  - destruct (update_rows e t p fs) as [t'|] eqn:H; [|auto].
    apply update_rows_shape in H as [->| ->]; [auto|].
    apply in_map_iff in Hin as [r0 [<- Hin]].
    destruct (targets e UPDATE fs r0); simpl; auto.
  - destruct (delete_rows e t fs) as [t'|] eqn:H; [|auto].
    unfold delete_rows in H. apply bind_ok in H as [[] [_ H]]. inversion H; subst t'.
    apply filter_In in Hin as [Hin _]. auto.
  - destruct (select_rows e t fs); simpl in Hin; auto.
Qed.

Lemma stored_provider_ids_are_uuids (t : Table) :
  reachable_with_uuids t ->
  forall r, In r t -> (32 <= String.length (provider_id r))%nat.
Proof.
  induction 1 as [|e t q He _ IH]; [intros r []|].
  apply (exec_provider_ids (fun s => (32 <= String.length s)%nat) e t q He IH).
Qed.



(** ** The theorems at sample inputs *)

Lemma C1_owner_only_witness :
  auth_uid (server (Some alice) 0 row1) = Some alice
  /\ alice <> bob
  /\ (forall cmd r, user_id r = bob -> rls (server (Some alice) 0 row1) cmd r = false)
  /\ fst (exec (server (Some alice) 0 row1) []
            (insert (Providers.add_values bob clinic))) = [].
Proof.
  assert (Hne : alice <> bob) by (intros H; discriminate H).
  destruct (C1_owner_only (server (Some alice) 0 row1) alice bob eq_refl Hne)
    as [_ [Hdeny [_ [_ [_ Hins]]]]].
  split; [reflexivity|]. split; [exact Hne|]. split; [exact Hdeny|].
  assert (Hv : v_user_id (Providers.add_values bob clinic) <> Some alice)
    by (intros H; discriminate H).
  destruct (Hins [] (Providers.add_values bob clinic) on_primary_key Hv) as [_ Hq].
  apply (Hq (insert (Providers.add_values bob clinic))). now left.
Defined.

Lemma C2_upsert_existing_pair_witness :
  let w := {| online := true; env := server (Some alice) 9 row2 |} in
  let t := [consent row1 alice clinic false false false false 1 1] in
  let r := run w t
             (Providers.handleUpdatePermissions (Some (UserData.mk alice)) clinic
                (Providers.all_permissions true true false) Providers.initial) in
  In (consent row1 alice clinic false false false false 1 1) t
  /\ table r = t
  /\ log r = [console_error "Error updating provider permissions:"].
Proof.
  intros w t r. split; [now left|].
  apply (C2_upsert_existing_pair_refused w t (Some (UserData.mk alice)) alice clinic
           (Providers.all_permissions true true false) Providers.initial
           (consent row1 alice clinic false false false false 1 1));
    try reflexivity.
  - simpl. intros [H|[]]. discriminate H.
  - now left.
Defined.


Lemma C7_upsert_creates_witness :
  let w := {| online := true; env := server (Some alice) 7 row1 |} in
  let r := run w []
             (Providers.handleUpdatePermissions (Some (UserData.mk alice)) clinic
                lab_results_only Providers.initial) in
  In alice (auth_users (env w))
  /\ table r = [consent row1 alice clinic true false false true 7 7]
  /\ log r = [].
Proof.
  intros w r. split; [now left|].
  apply (C7_upsert_creates w [] (Some (UserData.mk alice)) alice clinic Providers.initial);
    try reflexivity.
  - now left.
  - intros [].
  - intros [].
Defined.

Lemma C8_no_identity_witness :
  UserData.signed_in None = None
  /\ (forall op s, requests (Providers.perform None op s) = [])
  /\ (forall ops t c',
        Consent.session None ops (fresh_session t) = Some c' ->
        Consent.issued c' = [] /\ Consent.store c' = t /\ Consent.mirror c' = []).
Proof.
  destruct (C8_no_identity None eq_refl) as [Hc [_ [_ [_ [_ Hp]]]]].
  split; [reflexivity|]. split; [exact Hp | exact Hc].
Defined.



(** ** Further properties of the table *)

Lemma NoDup_map_injective {A B : Type} (f : A -> B) (l : list A) (a b : A) :
  NoDup (map f l) -> In a l -> In b l -> f a = f b -> a = b.
Proof.
  induction l as [|x l IH]; simpl; intros Hnd Ha Hb Hf; [contradiction|].
  inversion Hnd as [|? ? Hnin Hnd']; subst.
  destruct Ha as [->|Ha], Hb as [->|Hb]; auto.
  - exfalso. apply Hnin. rewrite Hf. now apply in_map.
  - exfalso. apply Hnin. rewrite <- Hf. now apply in_map.
Qed.

(** X1.  In every table the server can reach, no two records share an id and no
    two records share a user and a provider. *)
Theorem reachable_one_record_per_pair (t : Table) :
  reachable t ->
  NoDup (map id t) /\ NoDup (map pair t)
  /\ (forall r1 r2, In r1 t -> In r2 t ->
        user_id r1 = user_id r2 -> provider_id r1 = provider_id r2 -> r1 = r2)
  /\ (forall r1 r2, In r1 t -> In r2 t -> id r1 = id r2 -> r1 = r2).
Proof.
  intros H. apply reachable_consistent in H as [Hi Hp].
  repeat split; [exact Hi | exact Hp | |].
  - intros r1 r2 H1 H2 Hu Hv.
    apply (NoDup_map_injective pair t r1 r2 Hp H1 H2). unfold pair. congruence.
  - intros r1 r2 H1 H2 He. exact (NoDup_map_injective id t r1 r2 Hi H1 H2 He).
Qed.

Lemma owner_expr_owned (e : Env) (uid : uuid) (r : ConsentRecord) :
  auth_uid e = Some uid -> owner_expr e (user_id r) = owned_by uid r.
Proof.
  intros Ha. unfold owner_expr, owned_by. rewrite Ha. apply String.eqb_sym.
Qed.

Lemma targets_owned (e : Env) (cmd : Command) (fs : list Filter) (uid : uuid)
    (r : ConsentRecord) :
  auth_uid e = Some uid ->
  targets e cmd fs r = owned_by uid r && forallb (matches r) fs.
Proof.
  intros Ha. unfold targets.
  replace (rls e SELECT r) with (owned_by uid r) by (symmetry; now apply owner_expr_owned).
  replace (rls e cmd r) with (owned_by uid r)
    by (symmetry; destruct cmd; now apply owner_expr_owned).
  now rewrite andb_diag.
Qed.

Lemma targets_anonymous (e : Env) (cmd : Command) (fs : list Filter) (r : ConsentRecord) :
  auth_uid e = None -> targets e cmd fs r = false.
Proof. intros Ha. unfold targets, rls, owner_expr. now rewrite Ha. Qed.

Lemma filter_all {A : Type} (keep : A -> bool) (l : list A) :
  (forall a, In a l -> keep a = true) -> filter keep l = l.
Proof.
  intros H. induction l as [|a l IH]; simpl; [reflexivity|].
  rewrite (H a (or_introl eq_refl)), IH; [reflexivity|].
  intros b Hb. apply H. now right.
Qed.

(** X2.  Nobody signed in: whatever is requested, the table stays as it is, a
    read that is accepted returns no record, and an insert or upsert is
    refused. *)
Theorem anonymous_gets_nothing (e : Env) (t : Table) :
  auth_uid e = None ->
  (forall q, fst (exec e t q) = t)
  /\ (forall fs rows, data (snd (exec e t (select fs))) = Some rows -> rows = [])
  /\ (forall v c, error (snd (exec e t (insert v))) <> None
                  /\ error (snd (exec e t (upsert v c))) <> None).
Proof.
  intros Ha.
  assert (Hc : forall v, exists x, candidate e v = err x).
  { intros v. destruct (candidate e v) as [r|x] eqn:H; [|eauto].
    apply candidate_owner in H as [H _]. congruence. }
  split; [|split].
  - intros [v|v c|p fs|fs|fs]; cbn [exec]; rewrite ?written_fst.
    + unfold insert_row. destruct (Hc v) as [x ->]. reflexivity.
    + unfold upsert_row. destruct (Hc v) as [x ->]. reflexivity.
    + destruct (update_rows e t p fs) as [t'|] eqn:H; [|reflexivity].
      apply update_rows_shape in H as [->| ->]; [reflexivity|].
      apply map_fixed. intros r _. now rewrite targets_anonymous.
    + destruct (delete_rows e t fs) as [t'|] eqn:H; [|reflexivity].
      unfold delete_rows in H. apply bind_ok in H as [[] [_ H]]. inversion H.
      apply filter_all. intros r _. now rewrite targets_anonymous.
    + destruct (select_rows e t fs); reflexivity.
  - intros fs rows. cbn [exec]. unfold select_rows.
    destruct (filters_parse e fs); cbn [guard bind read snd data]; [|discriminate].
    intros H. inversion H. apply filter_none. intros r _. now apply targets_anonymous.
  - intros v c. cbn [exec]. unfold insert_row, upsert_row.
    destruct (Hc v) as [x ->]. split; discriminate.
Qed.

Lemma run_await_online {S : Type} (w : World) (t : Table) (s : S) (q : Request)
    (k : Outcome -> S -> S * list LogEntry) :
  online w = true ->
  run w t (await s q k)
  = mkRan (fst (k (resolved (snd (exec (env w) t q))) s))
          (fst (exec (env w) t q))
          (snd (k (resolved (snd (exec (env w) t q))) s)).
Proof.
  intros Hon. unfold run, send. rewrite Hon.
  destruct (exec (env w) t q) as [t' r]. cbn [fst snd].
  destruct (k (resolved r) s). reflexivity.
Qed.

Lemma exec_select_own (e : Env) (t : Table) (uid : string) :
  auth_uid e = Some uid -> uuid_in e uid = true ->
  exec e t (select [eq_filter col_user_id uid])
  = (t, {| data := Some (listing uid t); error := None |}).
Proof.
  intros Ha Pu. cbn [exec]. unfold select_rows.
  cbn [filters_parse forallb filter_value]. rewrite Pu.
  cbn [andb guard bind read]. do 2 f_equal. f_equal.
  unfold listing. apply filter_ext. intros x.
  rewrite (targets_owned _ _ _ uid x Ha). cbn [forallb matches column_of].
  unfold owned_by. now rewrite andb_true_r, andb_diag.
Qed.

Lemma run_fetch (w : World) (t : Table) (userData : option UserData.t)
    (uid : string) (s : Consent.Mirror) :
  UserData.signed_in userData = Some uid -> serves w uid ->
  let r := run w t (Consent.fetchConsentRecords userData s) in
  state r = listing uid t /\ table r = t /\ log r = [].
Proof.
  intros Hs [Hon [Ha Pu]] r. unfold r, Consent.fetchConsentRecords. rewrite Hs.
  rewrite (run_await_online _ _ _ _ _ Hon), (exec_select_own _ _ uid Ha Pu).
  simpl. auto.
Qed.

(** X3.  The fetch of the consent page, for a signed-in user the server knows:
    the mirror becomes the user's records, all of them and no others, in table
    order; the table is not changed and nothing is logged. *)
Theorem fetch_loads_own_records (w : World) (t : Table) (userData : option UserData.t)
    (uid : string) (s : Consent.Mirror) :
  UserData.signed_in userData = Some uid -> serves w uid ->
  let r := run w t (Consent.fetchConsentRecords userData s) in
  state r = listing uid t /\ table r = t /\ log r = [].
Proof.
  intros Hs [Hon [Ha Pu]] r. unfold r, Consent.fetchConsentRecords. rewrite Hs.
  unfold run, send. rewrite Hon, (exec_select_own _ _ uid Ha Pu).
  cbn [fst snd error data state table log]. auto.
Qed.

(** X4.  A fetch that fails, because the server cannot be reached or answers with
    an error, leaves the mirror it found and writes one log line. *)
Theorem fetch_failure_keeps_mirror (w : World) (t : Table)
    (userData : option UserData.t) (s : Consent.Mirror) :
  store_failed w t (Consent.fetchConsentRecords userData s) = true ->
  let r := run w t (Consent.fetchConsentRecords userData s) in
  state r = s /\ table r = t /\ exists m, log r = [console_error m].
Proof.
  unfold store_failed, outcome, Consent.fetchConsentRecords.
  destruct (UserData.signed_in userData) as [uid|]; [|discriminate].
  unfold run, send. destruct (online w); [|simpl; eauto].
  cbn [exec]. destruct (select_rows (env w) t _) as [rows|x]; simpl;
    [discriminate | eauto].
Qed.

(** ** Approve, deny and the providers' handlers on the table *)

Lemma exec_approve (e : Env) (t : Table) (uid i : string) :
  auth_uid e = Some uid -> uuid_in e i = true ->
  exec e t (update Consent.approve_patch [eq_filter col_id i])
  = (map (fun x => if has_id i x && owned_by uid x then approved_at (now e) x else x) t,
     {| data := None; error := None |}).
Proof.
  intros Ha Pi. cbn [exec]. unfold update_rows.
  cbn [filters_parse forallb filter_value]. rewrite Pi.
  cbn [andb guard bind].
  change (patch_is_empty Consent.approve_patch) with false. cbn [written].
  f_equal. apply map_ext. intros x.
  rewrite (targets_owned _ _ _ uid x Ha). cbn [forallb matches column_of].
  rewrite andb_true_r, andb_comm. reflexivity.
Qed.

Lemma exec_delete_by_id (e : Env) (t : Table) (uid i : string) :
  auth_uid e = Some uid -> uuid_in e i = true ->
  exec e t (delete [eq_filter col_id i])
  = (filter (fun x => negb (has_id i x && owned_by uid x)) t,
     {| data := None; error := None |}).
Proof.
  intros Ha Pi. cbn [exec]. unfold delete_rows.
  cbn [filters_parse forallb filter_value]. rewrite Pi.
  cbn [andb guard bind written]. f_equal. apply filter_ext. intros x.
  rewrite (targets_owned _ _ _ uid x Ha). cbn [forallb matches column_of].
  rewrite andb_true_r, andb_comm. reflexivity.
Qed.

Lemma exec_delete_by_pair (e : Env) (t : Table) (uid p : string) :
  auth_uid e = Some uid -> uuid_in e uid = true -> uuid_in e p = true ->
  exec e t (delete [eq_filter col_user_id uid; eq_filter col_provider_id p])
  = (filter (fun x => negb (owned_by uid x && for_provider p x)) t,
     {| data := None; error := None |}).
Proof.
  intros Ha Pu Pp. cbn [exec]. unfold delete_rows.
  cbn [filters_parse forallb filter_value]. rewrite Pu, Pp.
  cbn [andb guard bind written]. f_equal. apply filter_ext. intros x.
  rewrite (targets_owned _ _ _ uid x Ha). cbn [forallb matches column_of].
  unfold owned_by, for_provider. rewrite andb_true_r, andb_assoc, andb_diag.
  reflexivity.
Qed.

Lemma run_approve (w : World) (t : Table) (uid : string)
    (c : ConsentRecord) (s : Consent.Mirror) :
  serves w uid -> uuid_in (env w) (id c) = true ->
  let r := run w t (Consent.approve c s) in
  table r
  = map (fun x => if has_id (id c) x && owned_by uid x
                  then approved_at (now (env w)) x else x) t
  /\ state r = s /\ log r = [].
Proof.
  intros [Hon [Ha _]] Pi r. unfold r, Consent.approve.
  rewrite (run_await_online _ _ _ _ _ Hon), (exec_approve _ _ uid _ Ha Pi).
  simpl. auto.
Qed.

(** X5.  The Approve button, pressed by a signed-in user the server knows: every
    record of the user with the button's id becomes approved and carries the
    time of the update; its other columns, and every other record, stay as
    they are.  The mirror is not touched and nothing is logged. *)
Theorem approve_marks_own_record (w : World) (t : Table) (uid : string)
    (c : ConsentRecord) (s : Consent.Mirror) :
  serves w uid -> uuid_in (env w) (id c) = true ->
  let r := run w t (Consent.approve c s) in
  table r
  = map (fun x => if has_id (id c) x && owned_by uid x
                  then approved_at (now (env w)) x else x) t
  /\ state r = s /\ log r = [].
Proof.
  intros [Hon [Ha _]] Pi r. unfold r, Consent.approve, run, send.
  rewrite Hon, (exec_approve _ _ uid _ Ha Pi).
  cbn [log_only error]. auto.
Qed.

(** X6.  Approving a record that is no longer in the table, or is another
    user's, is answered without error: nothing changes and nothing is
    logged. *)
Theorem approve_absent_is_silent (w : World) (t : Table) (uid : string)
    (c : ConsentRecord) (s : Consent.Mirror) :
  serves w uid -> uuid_in (env w) (id c) = true ->
  (forall x, In x t -> id x = id c -> user_id x <> uid) ->
  let p := Consent.approve c s in
  store_failed w t p = false /\ table (run w t p) = t /\ log (run w t p) = [].
Proof.
  intros Hsv Pi Habs p.
  destruct (run_approve w t uid c s Hsv Pi) as [Ht [_ Hl]].
  destruct Hsv as [Hon [Ha _]].
  split; [|split; [|exact Hl]].
  - unfold store_failed, outcome, p, Consent.approve, send. rewrite Hon.
    rewrite (exec_approve _ _ uid _ Ha Pi). reflexivity.
  - unfold p. rewrite Ht. apply map_fixed. intros x Hx.
    destruct (has_id (id c) x) eqn:Hi; [|reflexivity].
    destruct (owned_by uid x) eqn:Ho; [|reflexivity].
    apply String.eqb_eq in Hi, Ho. now destruct (Habs x Hx Hi).
Qed.

Lemma filter_both {A : Type} (keep q : A -> bool) (l : list A) :
  filter keep (filter q l) = filter (fun a => q a && keep a) l.
Proof.
  induction l as [|a l IH]; simpl; [reflexivity|].
  destruct (q a); simpl; [destruct (keep a)|]; now rewrite IH.
Qed.

Lemma run_deny (w : World) (t : Table) (uid : string)
    (c : ConsentRecord) (s : Consent.Mirror) :
  serves w uid -> uuid_in (env w) (id c) = true ->
  let r := run w t (Consent.deny c s) in
  table r = filter (fun x => negb (has_id (id c) x && owned_by uid x)) t
  /\ state r = s /\ log r = [].
Proof.
  intros [Hon [Ha _]] Pi r. unfold r, Consent.deny.
  rewrite (run_await_online _ _ _ _ _ Hon), (exec_delete_by_id _ _ uid _ Ha Pi).
  simpl. auto.
Qed.

Lemma listing_without_id (uid i : string) (t : Table) :
  listing uid (filter (fun x => negb (has_id i x && owned_by uid x)) t)
  = filter (fun x => negb (has_id i x)) (listing uid t).
Proof.
  unfold listing. rewrite !filter_both. apply filter_ext. intros x.
  destruct (owned_by uid x), (has_id i x); reflexivity.
Qed.

(** X7.  The Deny button: the user's records with the button's id are deleted
    and nothing else; the user's listing afterwards is the listing before
    without that id. *)
Theorem deny_removes_own_record (w : World) (t : Table) (uid : string)
    (c : ConsentRecord) (s : Consent.Mirror) :
  serves w uid -> uuid_in (env w) (id c) = true ->
  let r := run w t (Consent.deny c s) in
  table r = filter (fun x => negb (has_id (id c) x && owned_by uid x)) t
  /\ listing uid (table r) = filter (fun x => negb (has_id (id c) x)) (listing uid t)
  /\ (forall u, u <> uid -> listing u (table r) = listing u t)
  /\ state r = s /\ log r = [].
Proof.
  intros [Hon [Ha _]] Pi r.
  assert (Hr : table r = filter (fun x => negb (has_id (id c) x && owned_by uid x)) t
               /\ state r = s /\ log r = []).
  { unfold r, Consent.deny, run, send. rewrite Hon, (exec_delete_by_id _ _ uid _ Ha Pi).
    cbn [log_only error]. auto. }
  destruct Hr as [Ht Hsl]. split; [exact Ht|]. rewrite Ht.
  split; [apply listing_without_id|]. split; [|exact Hsl].
  intros u Hu. unfold listing. rewrite filter_both.
  apply filter_ext. intros x. unfold owned_by.
  destruct (String.eqb (user_id x) u) eqn:E1; [|now rewrite ?andb_false_r].
  destruct (String.eqb (user_id x) uid) eqn:E2; [|now rewrite ?andb_false_r].
  apply String.eqb_eq in E1, E2. congruence.
Qed.

(** X8.  Pressing Deny again, on the record that is already gone: the request is
    answered without error and the table stays as the first Deny left it. *)
Theorem deny_again_changes_nothing (w1 w2 : World) (t : Table) (uid : string)
    (c : ConsentRecord) (s : Consent.Mirror) :
  serves w1 uid -> uuid_in (env w1) (id c) = true ->
  serves w2 uid -> uuid_in (env w2) (id c) = true ->
  let once := run w1 t (Consent.deny c s) in
  let twice := run w2 (table once) (Consent.deny c s) in
  table twice = table once /\ log twice = []
  /\ store_failed w2 (table once) (Consent.deny c s) = false.
Proof.
  intros H1 P1 H2 P2 once twice.
  destruct (run_deny w1 t uid c s H1 P1) as [Ht1 _].
  destruct (run_deny w2 (table once) uid c s H2 P2) as [Ht2 [_ Hl]].
  fold once in Ht1. fold twice in Ht2, Hl.
  split; [|split; [exact Hl|]].
  - rewrite Ht2, Ht1. apply filter_twice.
  - destruct H2 as [Hon [Ha _]].
    unfold store_failed, outcome, Consent.deny, send. rewrite Hon.
    rewrite (exec_delete_by_id _ _ uid _ Ha P2). reflexivity.
Qed.

Lemma run_log_only_state {S : Type} (w : World) (t : Table) (s : S) (q : Request)
    (m1 m2 : string) :
  state (run w t (await s q (log_only m1 m2))) = s.
Proof.
  unfold run. destruct (send w t q) as [t' o].
  destruct o as [[d [x|]]|]; reflexivity.
Qed.

Lemma update_permissions_page (w : World) (t : Table) (userData : option UserData.t)
    (pid : string) (permissions : Providers.Permissions) (s : Providers.State) :
  state (run w t (Providers.handleUpdatePermissions userData pid permissions s))
  = {| Providers.providersList :=
         map (fun provider =>
                if provider_has_id pid provider
                then Providers.with_permissions provider permissions
                else provider)
             (Providers.providersList s);
       Providers.isAccessModalOpen := Providers.isAccessModalOpen s |}.
Proof.
  unfold Providers.handleUpdatePermissions.
  destruct (UserData.signed_in userData); [apply run_log_only_state | reflexivity].
Qed.

Lemma delete_provider_page (w : World) (t : Table) (userData : option UserData.t)
    (pid : string) (s : Providers.State) :
  state (run w t (Providers.handleDeleteProvider userData pid s))
  = {| Providers.providersList :=
         filter (fun provider => negb (provider_has_id pid provider))
                (Providers.providersList s);
       Providers.isAccessModalOpen := false |}.
Proof.
  unfold Providers.handleDeleteProvider.
  destruct (UserData.signed_in userData); [apply run_log_only_state | reflexivity].
Qed.

Lemma add_provider_page (w : World) (t : Table) (userData : option UserData.t)
    (random36 lastSync : string) (np : Providers.NewProvider) (s : Providers.State) :
  state (run w t (Providers.handleAddProvider userData random36 lastSync np s))
  = {| Providers.providersList :=
         Providers.providersList s
         ++ [ {| Providers.id := String.substring 2 9 random36;
                 Providers.name := Providers.new_name np;
                 Providers.category := Providers.new_category np;
                 Providers.status := Providers.pending;
                 Providers.dataTypes := Providers.new_dataTypes np;
                 Providers.lastSync := lastSync;
                 Providers.logo := "/elroi-logo.svg";
                 Providers.permissions := Providers.all_permissions false false false |} ];
       Providers.isAccessModalOpen := Providers.isAccessModalOpen s |}.
Proof.
  unfold Providers.handleAddProvider.
  destruct (UserData.signed_in userData); [apply run_log_only_state | reflexivity].
Qed.

Lemma substring_length (s : string) (n m : nat) :
  (String.length (String.substring n m s) <= m)%nat.
Proof.
  revert n m. induction s as [|c s IH]; intros [|n] [|m]; simpl; try lia.
  - specialize (IH 0%nat m). lia.
  - apply IH.
  - apply IH.
Qed.

(** The id the providers page draws is never read as a uuid. *)
Lemma drawn_id_refused (e : Env) (random36 : string) :
  reads_uuids e -> uuid_in e (String.substring 2 9 random36) = false.
Proof.
  intros Hu. apply not_true_is_false. intros H. apply Hu in H.
  pose proof (substring_length random36 2 9). lia.
Qed.

Lemma run_add_provider (w : World) (t : Table) (userData : option UserData.t)
    (uid random36 lastSync : string) (np : Providers.NewProvider) (s : Providers.State) :
  online w = true -> UserData.signed_in userData = Some uid -> reads_uuids (env w) ->
  let r := run w t (Providers.handleAddProvider userData random36 lastSync np s) in
  table r = t /\ log r = [console_error "Error creating consent record:"].
Proof.
  intros Hon Hs Hu r. unfold r, Providers.handleAddProvider. rewrite Hs.
  rewrite (run_await_online _ _ _ _ _ Hon). cbn [exec].
  destruct (unparsed_provider_refused (env w) t
              (Providers.add_values uid (String.substring 2 9 random36))
              (String.substring 2 9 random36) on_primary_key eq_refl
              (drawn_id_refused (env w) random36 Hu)) as [-> _].
  simpl. auto.
Qed.

(** X9.  Updating permissions on the providers page, whatever the store answers:
    the list keeps its providers in their order, each with its id, name and
    status; the providers with the given id have the new permissions, the
    others are untouched; doing it again changes nothing. *)
Theorem update_permissions_on_page (w w' : World) (t t' : Table)
    (userData : option UserData.t) (pid : string)
    (permissions : Providers.Permissions) (s : Providers.State) :
  let s1 := state (run w t (Providers.handleUpdatePermissions userData pid permissions s)) in
  let s2 := state (run w' t' (Providers.handleUpdatePermissions userData pid permissions s1)) in
  map Providers.id (Providers.providersList s1) = map Providers.id (Providers.providersList s)
  /\ map Providers.status (Providers.providersList s1)
     = map Providers.status (Providers.providersList s)
  /\ (forall p, In p (Providers.providersList s1) -> Providers.id p = pid ->
        Providers.permissions p = permissions)
  /\ filter (fun p => negb (provider_has_id pid p)) (Providers.providersList s1)
     = filter (fun p => negb (provider_has_id pid p)) (Providers.providersList s)
  /\ Providers.isAccessModalOpen s1 = Providers.isAccessModalOpen s
  /\ s2 = s1.
Proof.
  intros s1 s2. unfold s2, s1. rewrite !update_permissions_page. cbn.
  set (f := fun provider =>
              if provider_has_id pid provider
              then Providers.with_permissions provider permissions else provider).
  assert (Hid : forall p, Providers.id (f p) = Providers.id p)
    by (intros p; unfold f; destruct (provider_has_id pid p); reflexivity).
  split; [|split; [|split; [|split; [|split]]]].
  - rewrite map_map. apply map_ext. exact Hid.
  - rewrite map_map. apply map_ext. intros p. unfold f.
    destruct (provider_has_id pid p); reflexivity.
  - intros p Hin Hp. apply in_map_iff in Hin as [p0 [<- _]].
    unfold f in *. destruct (provider_has_id pid p0) eqn:E; [reflexivity|].
    unfold provider_has_id in E. apply String.eqb_neq in E. contradiction.
  - apply filter_map_fixed.
    + intros p Hk. unfold f. destruct (provider_has_id pid p); [discriminate|reflexivity].
    + intros p Hk. unfold provider_has_id in *. now rewrite Hid.
  - reflexivity.
  - f_equal. rewrite map_map. apply map_ext. intros p.
    unfold f at 1. unfold provider_has_id. rewrite Hid.
    fold (provider_has_id pid p). unfold f.
    destruct (provider_has_id pid p); reflexivity.
Qed.

(** X10.  Deleting a provider on the providers page, whatever the store answers:
    no provider with the id is left, the others keep their order, the access
    modal is closed; an id that no provider has leaves the list as it is;
    doing it again changes nothing. *)
Theorem delete_provider_on_page (w w' : World) (t t' : Table)
    (userData : option UserData.t) (pid : string) (s : Providers.State) :
  let s1 := state (run w t (Providers.handleDeleteProvider userData pid s)) in
  let s2 := state (run w' t' (Providers.handleDeleteProvider userData pid s1)) in
  (forall p, In p (Providers.providersList s1) ->
     In p (Providers.providersList s) /\ Providers.id p <> pid)
  /\ (forall p, In p (Providers.providersList s) -> Providers.id p <> pid ->
        In p (Providers.providersList s1))
  /\ ((forall p, In p (Providers.providersList s) -> Providers.id p <> pid) ->
        Providers.providersList s1 = Providers.providersList s)
  /\ Providers.isAccessModalOpen s1 = false
  /\ s2 = s1.
Proof.
  intros s1 s2. unfold s2, s1. rewrite !delete_provider_page. cbn.
  split; [|split; [|split; [|split]]].
  - intros p Hin. apply filter_In in Hin as [Hin Hk]. split; [exact Hin|].
    apply negb_true_iff in Hk. now apply String.eqb_neq in Hk.
  - intros p Hin Hne. apply filter_In. split; [exact Hin|].
    apply negb_true_iff. now apply String.eqb_neq.
  - intros H. apply filter_all. intros p Hin.
    apply negb_true_iff. apply String.eqb_neq. now apply H.
  - reflexivity.
  - f_equal. apply filter_twice.
Qed.

Lemma run_delete_provider (w : World) (t : Table)
    (userData : option UserData.t) (uid pid : string) (s : Providers.State) :
  UserData.signed_in userData = Some uid -> serves w uid ->
  uuid_in (env w) pid = true ->
  let r := run w t (Providers.handleDeleteProvider userData pid s) in
  table r = filter (fun x => negb (owned_by uid x && for_provider pid x)) t
  /\ log r = [].
Proof.
  intros Hs [Hon [Ha Pu]] Pp r.
  unfold r, Providers.handleDeleteProvider. rewrite Hs.
  rewrite (run_await_online _ _ _ _ _ Hon), (exec_delete_by_pair _ _ uid pid Ha Pu Pp).
  simpl. auto.
Qed.

(** X11.  Deleting a provider, for a signed-in user the server knows: the user's
    record for that provider is deleted from the table, and no record of
    another provider or of another user is. *)
Theorem delete_provider_in_table (w : World) (t : Table)
    (userData : option UserData.t) (uid pid : string) (s : Providers.State) :
  UserData.signed_in userData = Some uid -> serves w uid ->
  uuid_in (env w) pid = true ->
  let r := run w t (Providers.handleDeleteProvider userData pid s) in
  table r = filter (fun x => negb (owned_by uid x && for_provider pid x)) t
  /\ (forall x, In x (table r) -> user_id x = uid -> provider_id x <> pid)
  /\ (forall x, In x t -> user_id x <> uid \/ provider_id x <> pid -> In x (table r))
  /\ log r = [].
Proof.
  intros Hs [Hon [Ha Pu]] Pp r.
  assert (Hr : table r = filter (fun x => negb (owned_by uid x && for_provider pid x)) t
               /\ log r = []).
  { unfold r, Providers.handleDeleteProvider. rewrite Hs. unfold run, send.
    rewrite Hon, (exec_delete_by_pair _ _ uid pid Ha Pu Pp).
    cbn [log_only error]. auto. }
  destruct Hr as [Ht Hl]. split; [exact Ht|]. rewrite Ht.
  split; [|split; [|exact Hl]].
  - intros x Hin Hu Hp. apply filter_In in Hin as [_ Hk].
    unfold owned_by, for_provider in Hk. rewrite Hu, Hp, !String.eqb_refl in Hk.
    discriminate.
  - intros x Hin Hne. apply filter_In. split; [exact Hin|].
    apply negb_true_iff, andb_false_iff. unfold owned_by, for_provider.
    destruct Hne as [H|H]; [left|right]; now apply String.eqb_neq.
Qed.

(** X12.  On a server whose id columns are of type uuid, adding a provider
    never stores a record: the id the handler draws has at most nine
    characters, the insert is refused, the table is unchanged and the error is
    logged; the page lists the new provider, pending and under the drawn id,
    all the same. *)
Theorem add_provider_never_stored (w : World) (t : Table)
    (userData : option UserData.t) (uid random36 lastSync : string)
    (np : Providers.NewProvider) (s : Providers.State) :
  online w = true -> UserData.signed_in userData = Some uid -> reads_uuids (env w) ->
  let r := run w t (Providers.handleAddProvider userData random36 lastSync np s) in
  table r = t
  /\ log r = [console_error "Error creating consent record:"]
  /\ List.length (Providers.providersList (state r))
     = S (List.length (Providers.providersList s))
  /\ exists p, In p (Providers.providersList (state r))
               /\ Providers.id p = String.substring 2 9 random36
               /\ (String.length (Providers.id p) <= 9)%nat
               /\ Providers.status p = Providers.pending.
Proof.
  intros Hon Hs Hu r.
  destruct (run_add_provider w t userData uid random36 lastSync np s Hon Hs Hu)
    as [Ht Hl].
  split; [exact Ht|]. split; [exact Hl|].
  unfold r. rewrite add_provider_page. cbn. rewrite length_app. cbn.
  split; [lia|]. eexists. split; [apply in_or_app; right; now left|].
  cbn. split; [reflexivity|]. split; [apply substring_length | reflexivity].
Qed.

(** X13.  A provider is added and then deleted under the id that was drawn,
    an id no listed provider had: the list of the page is back where it was,
    whatever the store answers.  On a server whose id columns are of type
    uuid both requests are refused: the table is unchanged throughout and
    each handler logs its error. *)
Theorem add_then_delete_provider (w1 w2 : World) (t : Table)
    (userData : option UserData.t) (random36 lastSync : string)
    (np : Providers.NewProvider) (s : Providers.State) :
  (forall p, In p (Providers.providersList s) ->
     Providers.id p <> String.substring 2 9 random36) ->
  let added := run w1 t (Providers.handleAddProvider userData random36 lastSync np s) in
  let deleted :=
    run w2 (table added)
      (Providers.handleDeleteProvider userData (String.substring 2 9 random36)
         (state added)) in
  Providers.providersList (state deleted) = Providers.providersList s
  /\ (forall uid,
        online w1 = true -> online w2 = true ->
        UserData.signed_in userData = Some uid ->
        reads_uuids (env w1) -> reads_uuids (env w2) ->
        table added = t /\ table deleted = t
        /\ log added = [console_error "Error creating consent record:"]
        /\ log deleted = [console_error "Error deleting provider consent:"]).
Proof.
  intros Hpage added deleted. split.
  - unfold deleted. rewrite delete_provider_page. unfold added.
    rewrite add_provider_page. cbn. rewrite filter_app. cbn [filter].
    unfold provider_has_id at 2. cbn. rewrite String.eqb_refl. cbn.
    rewrite app_nil_r. apply filter_all. intros p Hp0.
    apply negb_true_iff. apply String.eqb_neq. now apply Hpage.
  - intros uid Hon1 Hon2 Hs Hu1 Hu2.
    destruct (run_add_provider w1 t userData uid random36 lastSync np s Hon1 Hs Hu1)
      as [Ht1 Hl1].
    fold added in Ht1, Hl1.
    assert (Hd : table deleted = table added
                 /\ log deleted = [console_error "Error deleting provider consent:"]).
    { unfold deleted, Providers.handleDeleteProvider. rewrite Hs.
      rewrite (run_await_online _ _ _ _ _ Hon2). cbn [exec]. unfold delete_rows.
      cbn [filters_parse forallb filter_value].
      rewrite (drawn_id_refused (env w2) random36 Hu2). cbn [andb].
      rewrite andb_false_r. simpl. auto. }
    destruct Hd as [Ht2 Hl2]. rewrite Ht2, Ht1. auto.
Qed.

(** ** What the pages never rewrite *)

Lemma pages_keep_keys (q : Request) : issued_by_pages q -> keeps_keys q.
Proof.
  intros [[userData [op [s Hq]]] | [userData [op [s [p [Hp Hq]]]]]].
  - destruct op as [providerId lastSync newProvider|providerId permissions|providerId];
      simpl in Hq;
      unfold Providers.handleAddProvider, Providers.handleUpdatePermissions,
        Providers.handleDeleteProvider in Hq;
      destruct (UserData.signed_in userData); simpl in Hq;
      try contradiction; destruct Hq as [<-|[]]; simpl; auto.
  - destruct op as [|payload|data|i|i]; simpl in Hp.
    + inversion Hp; subst p. unfold Consent.fetchConsentRecords in Hq.
      destruct (UserData.signed_in userData); simpl in Hq;
        try contradiction; destruct Hq as [<-|[]]; simpl; auto.
    + destruct (UserData.signed_in userData); [|discriminate].
      inversion Hp; subst p. destruct Hq.
    + inversion Hp; subst p. unfold Consent.handleAccessRequest in Hq.
      destruct (UserData.signed_in userData); simpl in Hq;
        try contradiction; destruct Hq as [<-|[]]; simpl; auto.
    + destruct (nth_error (Consent.pending s) i); [|discriminate].
      inversion Hp; subst p. destruct Hq as [<-|[]]. reflexivity.
    + destruct (nth_error (Consent.pending s) i); [|discriminate].
      inversion Hp; subst p. destruct Hq as [<-|[]]. reflexivity.
Qed.

Lemma candidate_defaults (e : Env) (v : Values) (r : ConsentRecord) :
  candidate e v = ok r ->
  id r = default (gen_random_uuid e) (v_id v)
  /\ created_at r = default (now e) (v_created_at v).
Proof.
  unfold candidate. intros H. apply bind_ok in H as [[] [_ H]].
  destruct (v_user_id v); [|discriminate].
  apply bind_ok in H as [[] [_ H]].
  destruct (v_provider_id v); [|discriminate].
  inversion H. auto.
Qed.

Lemma continues_refl (r : ConsentRecord) : continues r r.
Proof. unfold continues. auto. Qed.

(** X14.  Whatever request a handler of the pages sends, every record of the table
    afterwards either continues a record that was there, with the same id,
    user, provider and creation time, or was created by this request, under
    the generated id and with the request's time as its creation time. *)
Theorem pages_never_rewrite_identity (e : Env) (t : Table) (q : Request)
    (r' : ConsentRecord) :
  issued_by_pages q ->
  ~ In (gen_random_uuid e) (map id t) ->
  In r' (fst (exec e t q)) ->
  (exists r, In r t /\ continues r r')
  \/ (id r' = gen_random_uuid e /\ created_at r' = now e).
Proof.
  intros Hq Hfresh Hin. apply pages_keep_keys in Hq.
  destruct q as [v|v [c|]|p fs|fs|fs]; cbn [exec default] in Hin;
    rewrite ?written_fst in Hin; simpl in Hq; try contradiction.
  - destruct (insert_row e t v) as [t'|] eqn:H;
      [|left; exists r'; split; [exact Hin | apply continues_refl]].
    apply insert_row_shape in H as [x [Hx ->]].
    apply in_app_or in Hin as [Hin|[<-|[]]];
      [left; exists r'; split; [exact Hin | apply continues_refl]|].
    right. apply candidate_defaults in Hx as [Hi Hc].
    destruct Hq as [Hv1 Hv2]. now rewrite Hi, Hc, Hv1, Hv2.
  - destruct (upsert_row e t v on_primary_key) as [t'|] eqn:H;
      [|left; exists r'; split; [exact Hin | apply continues_refl]].
    unfold upsert_row in H. apply bind_ok in H as [x [Hx H]].
    apply candidate_defaults in Hx as [Hi Hc]. destruct Hq as [Hv1 Hv2].
    rewrite Hv1 in Hi. rewrite Hv2 in Hc. cbn [default] in Hi, Hc.
    assert (Hs : split_conflict (arbiter on_primary_key x) t = None).
    { apply split_conflict_none. apply same_id_absent. now rewrite Hi. }
    rewrite Hs in H. apply bind_ok in H as [[] [_ H]]. inversion H; subst t'.
    apply in_app_or in Hin as [Hin|[<-|[]]];
      [left; exists r'; split; [exact Hin | apply continues_refl] | right; auto].
  - destruct (update_rows e t p fs) as [t'|] eqn:H;
      [|left; exists r'; split; [exact Hin | apply continues_refl]].
    apply update_rows_shape in H as [->| ->];
      [left; exists r'; split; [exact Hin | apply continues_refl]|].
    apply in_map_iff in Hin as [r [Hr Hin]]. left. exists r. split; [exact Hin|].
    subst r'. destruct (targets e UPDATE fs r); [|apply continues_refl].
    unfold continues. simpl. rewrite Hq. auto.
  - destruct (delete_rows e t fs) as [t'|] eqn:H;
      [|left; exists r'; split; [exact Hin | apply continues_refl]].
    unfold delete_rows in H. apply bind_ok in H as [[] [_ H]]. inversion H; subst t'.
    apply filter_In in Hin as [Hin _].
    left; exists r'; split; [exact Hin | apply continues_refl].
  - destruct (select_rows e t fs); simpl in Hin;
      left; exists r'; split; try exact Hin; apply continues_refl.
Qed.

(** ** From one page to the other *)

Lemma listing_app (uid : uuid) (t1 t2 : Table) :
  listing uid (t1 ++ t2) = listing uid t1 ++ listing uid t2.
Proof. apply filter_app. Qed.

Lemma listing_own (uid : uuid) (r : ConsentRecord) :
  user_id r = uid -> listing uid [r] = [r].
Proof.
  intros H. unfold listing, owned_by. simpl. now rewrite H, String.eqb_refl.
Qed.

Lemma current_listed (m : Consent.Mirror) (c : ConsentRecord) :
  In c (ConsentView.listed (ConsentView.currentAccess m)) <-> In c m /\ approved c = true.
Proof.
  unfold ConsentView.currentAccess. destruct m as [|x m].
  - simpl. tauto.
  - cbn [List.length Nat.ltb Nat.leb ConsentView.listed]. apply filter_In.
Qed.

Lemma pending_listed (m : Consent.Mirror) (c : ConsentRecord) :
  In c (Consent.pending m) <-> In c m /\ approved c = false.
Proof.
  unfold Consent.pending. rewrite filter_In, negb_true_iff. tauto.
Qed.

(** X16.  On a server whose id columns are of type uuid, a provider added on
    the providers page never reaches the consent page: the fetch after the add
    loads exactly the records the user had before, and none of them has the
    id under which the providers page lists the new provider. *)
Theorem added_provider_never_listed (w1 w2 : World) (t : Table)
    (userData : option UserData.t) (uid random36 lastSync : string)
    (np : Providers.NewProvider) (s : Providers.State) (m : Consent.Mirror) :
  UserData.signed_in userData = Some uid ->
  online w1 = true -> reads_uuids (env w1) ->
  serves w2 uid -> reachable_with_uuids t ->
  let added := run w1 t (Providers.handleAddProvider userData random36 lastSync np s) in
  let fetched := run w2 (table added) (Consent.fetchConsentRecords userData m) in
  state fetched = listing uid t
  /\ (forall x, In x (state fetched) ->
        provider_id x <> String.substring 2 9 random36)
  /\ ConsentView.listed (ConsentView.accessRequests (state fetched))
     = Consent.pending (listing uid t).
Proof.
  intros Hs Hon1 Hu1 Hsv2 Hreach added fetched.
  destruct (run_add_provider w1 t userData uid random36 lastSync np s Hon1 Hs Hu1)
    as [Ht1 _].
  fold added in Ht1.
  destruct (run_fetch w2 (table added) userData uid m Hs Hsv2) as [Hf _].
  fold fetched in Hf. rewrite Ht1 in Hf.
  split; [exact Hf|]. rewrite Hf. split.
  - intros x Hx E. apply filter_In in Hx as [Hx _].
    apply (stored_provider_ids_are_uuids t Hreach) in Hx.
    pose proof (substring_length random36 2 9) as Hlen. rewrite <- E in Hlen. lia.
  - unfold ConsentView.accessRequests. destruct (listing uid t); reflexivity.
Qed.

(** ** The realtime handler against a refetch *)

Lemma filter_map_same {A : Type} (keep : A -> bool) (f : A -> A) (l : list A) :
  (forall a, keep (f a) = keep a) ->
  filter keep (map f l) = map f (filter keep l).
Proof.
  intros H. induction l as [|a l IH]; simpl; [reflexivity|].
  rewrite H. destruct (keep a); simpl; now rewrite IH.
Qed.

(** X17.  A mirror that holds the user's records still does after a record of
    the user was inserted for a new pair, with ids the server reads, and the
    INSERT event with the new record was handled. *)
Theorem insert_event_matches_refetch (e : Env) (t : Table) (v : Values)
    (uid pid : string) :
  auth_uid e = Some uid -> v_id v = None ->
  v_user_id v = Some uid -> v_provider_id v = Some pid ->
  uuid_in e uid = true -> uuid_in e pid = true -> In uid (auth_users e) ->
  ~ In (gen_random_uuid e) (map id t) ->
  ~ In (uid, pid) (map pair t) ->
  exists new,
    exec e t (insert v) = (t ++ [new], {| data := None; error := None |})
    /\ user_id new = uid /\ provider_id new = pid
    /\ Consent.on_postgres_changes (Consent.INSERT new) (listing uid t)
       = listing uid (fst (exec e t (insert v))).
Proof.
  intros Ha Hid Hu Hp Pu Pp Hin Hfresh Habsent.
  destruct (exec_creates e t v uid pid Ha Hid Hu Hp Pu Pp Hin Hfresh Habsent)
    as [He _].
  match type of He with _ = (t ++ [?r], _) => set (row := r) in * end.
  exists row. split; [exact He|]. split; [reflexivity|]. split; [reflexivity|].
  rewrite He. cbn [fst]. rewrite listing_app, (listing_own uid row eq_refl).
  reflexivity.
Qed.

(** X18.  A mirror that holds the user's records of a table with unique ids still
    does after one of them was approved and the UPDATE event with the
    approved record was handled. *)
Theorem approve_event_matches_refetch (w : World) (t : Table) (uid : string)
    (c row : ConsentRecord) (s : Consent.Mirror) :
  serves w uid -> uuid_in (env w) (id c) = true ->
  NoDup (map id t) -> In row t -> id row = id c -> user_id row = uid ->
  Consent.on_postgres_changes (Consent.UPDATE (approved_at (now (env w)) row))
    (listing uid t)
  = listing uid (table (run w t (Consent.approve c s))).
Proof.
  intros Hsv Pi Hnd Hin Hid Hu.
  destruct (run_approve w t uid c s Hsv Pi) as [-> _].
  unfold listing. rewrite filter_map_same.
  - cbn [Consent.on_postgres_changes]. apply map_ext_in. intros x Hx.
    apply filter_In in Hx as [Hx Ho]. rewrite Ho, andb_true_r.
    cbn [approved_at id]. unfold has_id. rewrite Hid.
    destruct (String.eqb (id x) (id c)) eqn:E; [|reflexivity].
    apply String.eqb_eq in E.
    rewrite (NoDup_map_injective id t x row Hnd Hx Hin); [reflexivity | congruence].
  - intros x. destruct (has_id (id c) x && owned_by uid x); reflexivity.
Qed.

(** X19.  A mirror that holds the user's records still does after one of them was
    denied and the DELETE event with its id was handled. *)
Theorem deny_event_matches_refetch (w : World) (t : Table) (uid : string)
    (c : ConsentRecord) (s : Consent.Mirror) :
  serves w uid -> uuid_in (env w) (id c) = true ->
  Consent.on_postgres_changes (Consent.DELETE (id c)) (listing uid t)
  = listing uid (table (run w t (Consent.deny c s))).
Proof.
  intros Hsv Pi.
  destruct (run_deny w t uid c s Hsv Pi) as [-> _].
  symmetry. apply listing_without_id.
Qed.

(** X20.  The ids of the mirror stay pairwise different under the handler as long
    as no INSERT event brings an id that is already there; an UPDATE event
    changes neither the ids nor their order. *)
Theorem mirror_ids_stay_unique (m : Consent.Mirror) (payload : Consent.Payload) :
  NoDup (map id m) ->
  (forall new, payload = Consent.INSERT new -> present (id new) m = false) ->
  NoDup (map id (Consent.on_postgres_changes payload m))
  /\ (forall new, payload = Consent.UPDATE new ->
        map id (Consent.on_postgres_changes payload m) = map id m).
Proof.
  intros Hnd Hins.
  assert (Hupd : forall new,
             map id (map (fun consent =>
                            if String.eqb (id consent) (id new) then new else consent) m)
             = map id m).
  { intros new. rewrite map_map. apply map_ext. intros x.
    destruct (String.eqb (id x) (id new)) eqn:E; [|reflexivity].
    apply String.eqb_eq in E. congruence. }
  destruct payload as [new|new|old_id]; cbn [Consent.on_postgres_changes].
  - split; [|discriminate]. apply NoDup_map_append; [exact Hnd|].
    specialize (Hins new eq_refl). unfold present in Hins.
    intros Hin. apply in_map_iff in Hin as [x [Hx Hin]].
    apply not_true_iff_false in Hins. apply Hins. apply existsb_exists.
    exists x. split; [exact Hin | now apply String.eqb_eq].
  - split; [now rewrite Hupd | intros new' H; inversion H; subst; apply Hupd].
  - split; [now apply NoDup_map_filter | discriminate].
Qed.

(** X21.  An INSERT event for a new id followed by the DELETE event for that id
    gives back the mirror; followed by an UPDATE event for that id it gives
    the mirror with the updated record at its end. *)
Theorem insert_event_then_its_delete (m : Consent.Mirror) (new new' : ConsentRecord) :
  present (id new) m = false -> id new' = id new ->
  Consent.on_postgres_changes (Consent.DELETE (id new))
    (Consent.on_postgres_changes (Consent.INSERT new) m) = m
  /\ Consent.on_postgres_changes (Consent.UPDATE new')
       (Consent.on_postgres_changes (Consent.INSERT new) m) = m ++ [new'].
Proof.
  intros Hp Hid. cbn [Consent.on_postgres_changes]. split.
  - rewrite filter_app. cbn [filter]. rewrite String.eqb_refl. cbn.
    rewrite app_nil_r. apply filter_all. intros x Hx. apply negb_true_iff.
    apply not_true_is_false. intros E. apply not_true_iff_false in Hp. apply Hp.
    unfold present. apply existsb_exists. eauto.
  - rewrite map_app. cbn [map]. rewrite Hid, String.eqb_refl.
    f_equal. apply map_fixed. intros x Hx.
    destruct (String.eqb (id x) (id new)) eqn:E; [|reflexivity].
    apply not_true_iff_false in Hp. exfalso. apply Hp.
    unfold present. apply existsb_exists. eauto.
Qed.

(** ** The sections of the consent page *)

(** X22.  Every record of a mirror that is not empty stands in exactly one of the
    two sections, approved records under "Current Access" and the others
    under "Access Requests", and the sections together have as many entries
    as the mirror has records. *)
Theorem sections_split_mirror (m : Consent.Mirror) :
  m <> [] ->
  ConsentView.currentAccess m = ConsentView.entries (filter approved m)
  /\ ConsentView.accessRequests m = ConsentView.entries (Consent.pending m)
  /\ (forall c, In c m <->
        In c (ConsentView.listed (ConsentView.currentAccess m))
        \/ In c (ConsentView.listed (ConsentView.accessRequests m)))
  /\ (forall c, ~ (In c (ConsentView.listed (ConsentView.currentAccess m))
                   /\ In c (ConsentView.listed (ConsentView.accessRequests m))))
  /\ (List.length (ConsentView.listed (ConsentView.currentAccess m))
      + List.length (ConsentView.listed (ConsentView.accessRequests m))
      = List.length m)%nat.
Proof.
  intros Hne. destruct m as [|x m]; [contradiction|].
  unfold ConsentView.currentAccess, ConsentView.accessRequests.
  change (Nat.ltb 0 (List.length (x :: m))) with true.
  cbn [ConsentView.listed].
  split; [reflexivity|]. split; [reflexivity|].
  set (l := x :: m). split; [|split].
  - intros c. unfold Consent.pending. rewrite !filter_In, negb_true_iff.
    destruct (approved c); intuition congruence.
  - intros c [H1 H2]. unfold Consent.pending in H2.
    apply filter_In in H1 as [_ H1]. apply filter_In in H2 as [_ H2].
    rewrite H1 in H2. discriminate.
  - unfold Consent.pending. clearbody l. clear.
    induction l as [|a l IH]; simpl; [reflexivity|].
    destruct (approved a); simpl; lia.
Qed.

(** X23.  A section shows its placeholder line only for an empty mirror.  With
    records that are all pending, "Current Access" is an empty list without
    the line; with records that are all approved, so is "Access Requests". *)
Theorem placeholder_only_for_empty_mirror (m : Consent.Mirror) :
  ((exists text, ConsentView.currentAccess m = ConsentView.placeholder text) <-> m = [])
  /\ ((exists text, ConsentView.accessRequests m = ConsentView.placeholder text) <-> m = [])
  /\ (m <> [] -> (forall c, In c m -> approved c = false) ->
        ConsentView.currentAccess m = ConsentView.entries [])
  /\ (m <> [] -> (forall c, In c m -> approved c = true) ->
        ConsentView.accessRequests m = ConsentView.entries []).
Proof.
  unfold ConsentView.currentAccess, ConsentView.accessRequests.
  destruct m as [|x m]; cbn [List.length Nat.ltb Nat.leb].
  - repeat split; eauto; intros; contradiction.
  - split; [|split; [|split]].
    + split; [intros [text H]; discriminate | discriminate].
    + split; [intros [text H]; discriminate | discriminate].
    + intros _ H. f_equal. apply filter_none. exact H.
    + intros _ H. f_equal. unfold Consent.pending. apply filter_none.
      intros c Hc. now rewrite (H c Hc).
Qed.

(** ** The hook *)

(** X24.  Whatever the two calls of the hook come to, it ends with [loading]
    false; started from its initial state it never ends with both a user and
    an error, it sets the error exactly when it logs one, and a page that
    finds a user finds no error. *)
Theorem hook_settles (getUser : UseSupabaseUser.Awaited UseSupabaseUser.GetUser)
    (getProfile : string -> UseSupabaseUser.Awaited UseSupabaseUser.GetProfile)
    (h : UseSupabaseUser.Hook) :
  let r := UseSupabaseUser.fetchUserData getUser getProfile h in
  let r0 := UseSupabaseUser.fetchUserData getUser getProfile UseSupabaseUser.initial in
  UseSupabaseUser.loading (fst r) = false
  /\ (UseSupabaseUser.userData (fst r0) = None \/ UseSupabaseUser.error (fst r0) = None)
  /\ (UseSupabaseUser.error (fst r0) <> None <->
      In (UseSupabaseUser.console_error "Error fetching user data:") (snd r0))
  /\ (UseSupabaseUser.page_user (fst r0) <> None -> UseSupabaseUser.error (fst r0) = None).
Proof.
  intros r r0. unfold r, r0, UseSupabaseUser.fetchUserData, UseSupabaseUser.page_user.
  destruct getUser as [[u [e|]]|m]; cbn;
    [destruct (negb (String.eqb (UseSupabaseUser.name e) "AuthSessionMissingError"))
    |destruct u as [u|]; cbn;
       [destruct (getProfile (UserData.id u)) as [p|m]; cbn;
          [destruct (UseSupabaseUser.profileError p)|]|]
    |];
    cbn;
    (split; [reflexivity|]);
    (split; [(left; reflexivity) || (right; reflexivity)|]);
    (split;
     [split; intros H;
        [first [now left | exfalso; apply H; reflexivity]
        |first [discriminate | simpl in H; intuition discriminate]]
     |intros H; first [reflexivity | exfalso; apply H; reflexivity]]).
Qed.

(** X25.  When [getUser] answers with an error, the profile is not asked for.  An
    error named [AuthSessionMissingError] signs the user out without setting
    or logging an error; any other error is logged, leaves the user as it was
    and sets the error to its message, or to the default text when the
    message is empty. *)
Theorem auth_error_in_hook (r : UseSupabaseUser.GetUser) (e : UseSupabaseUser.AuthError)
    (getProfile : string -> UseSupabaseUser.Awaited UseSupabaseUser.GetProfile)
    (h : UseSupabaseUser.Hook) :
  UseSupabaseUser.userError r = Some e ->
  let out := UseSupabaseUser.fetchUserData (UseSupabaseUser.fulfilled r) getProfile h in
  (UseSupabaseUser.name e = "AuthSessionMissingError" ->
     out = ({| UseSupabaseUser.userData := None;
               UseSupabaseUser.loading := false;
               UseSupabaseUser.error := UseSupabaseUser.error h |}, [])
     /\ UseSupabaseUser.page_user (fst out) = None)
  /\ (UseSupabaseUser.name e <> "AuthSessionMissingError" ->
     out = ({| UseSupabaseUser.userData := UseSupabaseUser.userData h;
               UseSupabaseUser.loading := false;
               UseSupabaseUser.error :=
                 Some (if String.eqb (UseSupabaseUser.message e) EmptyString
                       then "Failed to fetch user data"
                       else UseSupabaseUser.message e) |},
            [UseSupabaseUser.console_error "Error fetching user data:"])).
Proof.
  intros He out. unfold out, UseSupabaseUser.fetchUserData. rewrite He. split.
  - intros Hn. rewrite Hn. cbn. auto.
  - intros Hn. apply String.eqb_neq in Hn. rewrite Hn. reflexivity.
Qed.

(** X26.  With a user and no auth error, a profile query that answers with an
    error does not keep the user out: the page finds the user, with the
    profile the answer carries or none, the error state is untouched and one
    warning is logged.  A profile query that throws does: the user is not
    set and the error is. *)
Theorem profile_failure_in_hook (r : UseSupabaseUser.GetUser) (u : UserData.t)
    (getProfile : string -> UseSupabaseUser.Awaited UseSupabaseUser.GetProfile)
    (h : UseSupabaseUser.Hook) :
  UseSupabaseUser.userError r = None -> UseSupabaseUser.user r = Some u ->
  let out := UseSupabaseUser.fetchUserData (UseSupabaseUser.fulfilled r) getProfile h in
  (forall p, getProfile (UserData.id u) = UseSupabaseUser.fulfilled p ->
     UseSupabaseUser.userData (fst out)
     = Some {| UseSupabaseUser.account := u;
               UseSupabaseUser.profile := UseSupabaseUser.profileData p |}
     /\ UseSupabaseUser.page_user (fst out) = UserData.signed_in (Some u)
     /\ UseSupabaseUser.error (fst out) = UseSupabaseUser.error h
     /\ (UseSupabaseUser.profileError p <> None ->
           snd out = [UseSupabaseUser.console_warn "Error fetching user profile:"])
     /\ (UseSupabaseUser.profileError p = None -> snd out = []))
  /\ (forall m, getProfile (UserData.id u) = UseSupabaseUser.rejected m ->
     UseSupabaseUser.userData (fst out) = UseSupabaseUser.userData h
     /\ UseSupabaseUser.error (fst out) <> None
     /\ snd out = [UseSupabaseUser.console_error "Error fetching user data:"]).
Proof.
  intros He Hu out. unfold out, UseSupabaseUser.fetchUserData. rewrite He, Hu. split.
  - intros p Hp. rewrite Hp. cbn. repeat split.
    + destruct (UseSupabaseUser.profileError p); [reflexivity | contradiction].
    + intros ->. reflexivity.
  - intros m Hm. rewrite Hm. cbn. repeat split. discriminate.
Qed.

(** ** Provider ids that are not uuids *)

(** X27.  On a server whose uuid columns do not take the provider id, every
    handler that sends it is refused before any row is looked at: adding the
    provider, updating its permissions, deleting it, and, when it is the
    placeholder that is not taken, the access request.  The table is
    unchanged and the handler logs its error line. *)
Theorem unparsed_provider_id_refused (w : World) (t : Table)
    (userData : option UserData.t) (uid : string) :
  online w = true -> UserData.signed_in userData = Some uid ->
  (forall random36 lastSync np s,
     uuid_in (env w) (String.substring 2 9 random36) = false ->
     let r := run w t (Providers.handleAddProvider userData random36 lastSync np s) in
     table r = t /\ log r = [console_error "Error creating consent record:"])
  /\ (forall pid permissions s, uuid_in (env w) pid = false ->
     let r := run w t (Providers.handleUpdatePermissions userData pid permissions s) in
     table r = t /\ log r = [console_error "Error updating provider permissions:"])
  /\ (forall pid s, uuid_in (env w) pid = false ->
     let r := run w t (Providers.handleDeleteProvider userData pid s) in
     table r = t /\ log r = [console_error "Error deleting provider consent:"])
  /\ (forall data s, uuid_in (env w) "generic-provider" = false ->
     let r := run w t (Consent.handleAccessRequest userData data s) in
     table r = t /\ log r = [console_error "Error creating consent record:"]).
Proof.
  intros Hon Hs. split; [|split; [|split]].
  - intros random36 lastSync np s Hp r.
    unfold r, Providers.handleAddProvider. rewrite Hs.
    rewrite (run_await_online _ _ _ _ _ Hon). cbn [exec].
    destruct (unparsed_provider_refused (env w) t
                (Providers.add_values uid (String.substring 2 9 random36))
                (String.substring 2 9 random36) on_primary_key eq_refl Hp) as [-> _].
    simpl. auto.
  - intros pid permissions s Hp r. unfold r, Providers.handleUpdatePermissions.
    rewrite Hs. rewrite (run_await_online _ _ _ _ _ Hon). cbn [exec default].
    destruct (unparsed_provider_refused (env w) t
                (Providers.permission_values uid pid permissions) pid
                on_primary_key eq_refl Hp) as [_ ->].
    simpl. auto.
  - intros pid s Hp r. unfold r, Providers.handleDeleteProvider. rewrite Hs.
    rewrite (run_await_online _ _ _ _ _ Hon). cbn [exec]. unfold delete_rows.
    cbn [filters_parse forallb filter_value]. rewrite Hp. cbn [andb].
    rewrite andb_false_r. simpl. auto.
  - intros data s Hp r. unfold r, Consent.handleAccessRequest. rewrite Hs.
    rewrite (run_await_online _ _ _ _ _ Hon). cbn [exec].
    destruct (unparsed_provider_refused (env w) t
                (Consent.access_request_values uid data) "generic-provider"
                on_primary_key eq_refl Hp) as [-> _].
    simpl. auto.
Qed.

(** ** The further properties at sample inputs *)

Lemma reachable_one_record_per_pair_witness :
  let t := fst (exec (server (Some alice) 1 row1) []
                  (insert (Providers.add_values alice clinic))) in
  reachable t /\ NoDup (map id t) /\ NoDup (map pair t).
Proof.
  intros t.
  assert (H : reachable t) by (apply reachable_exec, reachable_empty).
  destruct (reachable_one_record_per_pair t H) as [Hi [Hp _]]. auto.
Defined.

Lemma anonymous_gets_nothing_witness :
  let e := server None 3 row2 in
  let t := [consent row1 alice clinic false false false false 1 1] in
  auth_uid e = None
  /\ fst (exec e t (delete [eq_filter col_id row1])) = t
  /\ fst (exec e t (update Consent.approve_patch [eq_filter col_id row1])) = t.
Proof.
  intros e t.
  destruct (anonymous_gets_nothing e t eq_refl) as [H _].
  split; [reflexivity|]. split; apply H.
Defined.

Lemma fetch_loads_own_records_witness :
  let w := at_server (Some alice) 4 row2 in
  let t := [consent row1 alice clinic false false false false 1 1;
            consent row2 bob clinic true true true true 2 2] in
  serves w alice
  /\ state (run w t (Consent.fetchConsentRecords (signed alice) []))
     = [consent row1 alice clinic false false false false 1 1].
Proof.
  intros w t.
  assert (Hsv : serves w alice) by (unfold serves; repeat split).
  split; [exact Hsv|].
  exact (proj1 (fetch_loads_own_records w t (signed alice) alice [] eq_refl Hsv)).
Defined.

Lemma fetch_failure_keeps_mirror_witness :
  let w := {| online := false; env := server (Some alice) 4 row2 |} in
  let s := [consent row1 alice clinic false false false false 1 1] in
  store_failed w [] (Consent.fetchConsentRecords (signed alice) s) = true
  /\ state (run w [] (Consent.fetchConsentRecords (signed alice) s)) = s.
Proof.
  intros w s. split; [reflexivity|].
  exact (proj1 (fetch_failure_keeps_mirror w [] (signed alice) s eq_refl)).
Defined.

Lemma approve_marks_own_record_witness :
  let w := at_server (Some alice) 9 row2 in
  let mine := consent row1 alice clinic true false false false 1 1 in
  let other := consent row2 bob clinic true true true false 2 2 in
  serves w alice
  /\ table (run w [mine; other] (Consent.approve mine [mine]))
     = [consent row1 alice clinic true false false true 1 9; other].
Proof.
  intros w mine other.
  assert (Hsv : serves w alice) by (unfold serves; repeat split).
  split; [exact Hsv|].
  exact (proj1 (approve_marks_own_record w [mine; other] alice mine [mine] Hsv eq_refl)).
Defined.

Lemma approve_absent_is_silent_witness :
  let w := at_server (Some alice) 9 row1 in
  let gone := consent row1 alice clinic true false false false 1 1 in
  let t := [consent row2 bob clinic true true true false 2 2] in
  serves w alice
  /\ store_failed w t (Consent.approve gone [gone]) = false
  /\ table (run w t (Consent.approve gone [gone])) = t
  /\ log (run w t (Consent.approve gone [gone])) = [].
Proof.
  intros w gone t.
  assert (Hsv : serves w alice) by (unfold serves; repeat split).
  split; [exact Hsv|].
  apply (approve_absent_is_silent w t alice gone [gone] Hsv eq_refl).
  intros x [<-|[]] H. discriminate H.
Defined.

Lemma deny_removes_own_record_witness :
  let w := at_server (Some alice) 9 row1 in
  let mine := consent row1 alice clinic true false false false 1 1 in
  let other := consent row2 bob clinic true true true false 2 2 in
  serves w alice
  /\ table (run w [mine; other] (Consent.deny mine [mine])) = [other].
Proof.
  intros w mine other.
  assert (Hsv : serves w alice) by (unfold serves; repeat split).
  split; [exact Hsv|].
  exact (proj1 (deny_removes_own_record w [mine; other] alice mine [mine] Hsv eq_refl)).
Defined.

Lemma deny_again_changes_nothing_witness :
  let w1 := at_server (Some alice) 9 row1 in
  let w2 := at_server (Some alice) 12 row1 in
  let mine := consent row1 alice clinic true false false false 1 1 in
  let other := consent row2 bob clinic true true true false 2 2 in
  let once := run w1 [mine; other] (Consent.deny mine [mine]) in
  let twice := run w2 (table once) (Consent.deny mine [mine]) in
  serves w1 alice /\ serves w2 alice
  /\ table twice = table once /\ log twice = [].
Proof.
  intros w1 w2 mine other once twice.
  assert (H1 : serves w1 alice) by (unfold serves; repeat split).
  assert (H2 : serves w2 alice) by (unfold serves; repeat split).
  destruct (deny_again_changes_nothing w1 w2 [mine; other] alice mine [mine]
              H1 eq_refl H2 eq_refl) as [Ht [Hl _]].
  auto.
Defined.

Lemma delete_provider_in_table_witness :
  let w := at_server (Some alice) 9 row1 in
  let mine := consent row1 alice clinic true false false false 1 1 in
  let other := consent row2 bob clinic true true true false 2 2 in
  serves w alice
  /\ table (run w [mine; other]
              (Providers.handleDeleteProvider (signed alice) clinic Providers.initial))
     = [other].
Proof.
  intros w mine other.
  assert (Hsv : serves w alice) by (unfold serves; repeat split).
  split; [exact Hsv|].
  exact (proj1 (delete_provider_in_table w [mine; other] (signed alice) alice clinic
                  Providers.initial eq_refl Hsv eq_refl)).
Defined.

Lemma add_provider_never_stored_witness :
  let w := at_server (Some alice) 9 row2 in
  let mine := consent row1 alice clinic true false false false 1 1 in
  let r := run w [mine]
             (Providers.handleAddProvider (signed alice) "0.k3j9x0q2a"
                "2024-03-16T08:00:00Z" city_clinic Providers.initial) in
  reads_uuids (env w)
  /\ table r = [mine]
  /\ log r = [console_error "Error creating consent record:"]
  /\ List.length (Providers.providersList (state r)) = 4%nat.
Proof.
  intros w mine r.
  assert (Hu : reads_uuids (env w)) by apply server_reads_uuids.
  destruct (add_provider_never_stored w [mine] (signed alice) alice "0.k3j9x0q2a"
              "2024-03-16T08:00:00Z" city_clinic Providers.initial
              eq_refl eq_refl Hu) as [Ht [Hl [Hn _]]].
  split; [exact Hu|]. split; [exact Ht|]. split; [exact Hl | exact Hn].
Defined.

Lemma add_then_delete_provider_witness :
  let w1 := at_server (Some alice) 9 row2 in
  let w2 := at_server (Some alice) 11 row2 in
  let t := [consent row1 bob clinic true true true false 2 2] in
  let added := run w1 t
                 (Providers.handleAddProvider (signed alice) "0.k3j9x0q2a"
                    "2024-03-16T08:00:00Z" city_clinic Providers.initial) in
  let deleted :=
    run w2 (table added)
      (Providers.handleDeleteProvider (signed alice) "k3j9x0q2a" (state added)) in
  (forall p, In p Providers.initialProviders -> Providers.id p <> "k3j9x0q2a")
  /\ Providers.providersList (state deleted) = Providers.initialProviders
  /\ table deleted = t.
Proof.
  intros w1 w2 t added deleted.
  assert (Hpage : forall p, In p (Providers.providersList Providers.initial) ->
                            Providers.id p <> String.substring 2 9 "0.k3j9x0q2a").
  { intros p [<-|[<-|[<-|[]]]] H; discriminate H. }
  destruct (add_then_delete_provider w1 w2 t (signed alice) "0.k3j9x0q2a"
              "2024-03-16T08:00:00Z" city_clinic Providers.initial Hpage)
    as [Hp Hstore].
  destruct (Hstore alice eq_refl eq_refl eq_refl
              (server_reads_uuids _ _ _) (server_reads_uuids _ _ _))
    as [_ [Ht _]].
  split; [exact Hpage|]. split; [exact Hp | exact Ht].
Defined.

Lemma pages_never_rewrite_identity_witness :
  let e := server (Some alice) 9 row2 in
  let mine := consent row1 alice clinic true false false false 1 1 in
  let q := update Consent.approve_patch [eq_filter col_id row1] in
  issued_by_pages q
  /\ In (consent row1 alice clinic true false false true 1 9) (fst (exec e [mine] q))
  /\ ((exists r, In r [mine]
                 /\ continues r (consent row1 alice clinic true false false true 1 9))
      \/ (row1 = row2 /\ 1%Z = 9%Z)).
Proof.
  intros e mine q.
  assert (Hq : issued_by_pages q).
  { right. exists (signed alice), (Consent.op_approve 0), [mine],
      (Consent.approve mine [mine]).
    split; [reflexivity | now left]. }
  assert (Hfresh : ~ In (gen_random_uuid e) (map id [mine]))
    by (simpl; intros [H|[]]; discriminate H).
  assert (Hin : In (consent row1 alice clinic true false false true 1 9)
                   (fst (exec e [mine] q))) by (now left).
  split; [exact Hq|]. split; [exact Hin|].
  exact (pages_never_rewrite_identity e [mine] q _ Hq Hfresh Hin).
Defined.

Lemma added_provider_never_listed_witness :
  let w1 := at_server (Some alice) 3 row2 in
  let w2 := at_server (Some alice) 4 row2 in
  let t := fst (exec (server (Some alice) 1 row1) []
                  (insert (Providers.add_values alice clinic))) in
  let added := run w1 t
                 (Providers.handleAddProvider (signed alice) "0.k3j9x0q2a"
                    "2024-03-16T08:00:00Z" city_clinic Providers.initial) in
  let fetched := run w2 (table added) (Consent.fetchConsentRecords (signed alice) []) in
  serves w2 alice /\ reachable_with_uuids t
  /\ state fetched = [consent row1 alice clinic false false false false 1 1].
Proof.
  intros w1 w2 t added fetched.
  assert (H2 : serves w2 alice) by (unfold serves; repeat split).
  assert (Hr : reachable_with_uuids t)
    by (apply uuids_exec; [apply server_reads_uuids | apply uuids_empty]).
  split; [exact H2|]. split; [exact Hr|].
  exact (proj1 (added_provider_never_listed w1 w2 t (signed alice) alice "0.k3j9x0q2a"
                  "2024-03-16T08:00:00Z" city_clinic Providers.initial []
                  eq_refl eq_refl (server_reads_uuids _ _ _) H2 Hr)).
Defined.

Lemma insert_event_matches_refetch_witness :
  let e := server (Some alice) 3 row1 in
  let t := [consent row2 bob clinic true true true true 1 1] in
  ~ In (alice, clinic) (map pair t)
  /\ exists new,
       exec e t (insert (Providers.add_values alice clinic))
       = (t ++ [new], {| data := None; error := None |})
       /\ Consent.on_postgres_changes (Consent.INSERT new) (listing alice t)
          = listing alice (fst (exec e t (insert (Providers.add_values alice clinic)))).
Proof.
  intros e t.
  assert (Hfresh : ~ In (gen_random_uuid e) (map id t))
    by (simpl; intros [H|[]]; discriminate H).
  assert (Habsent : ~ In (alice, clinic) (map pair t))
    by (simpl; intros [H|[]]; discriminate H).
  split; [exact Habsent|].
  destruct (insert_event_matches_refetch e t (Providers.add_values alice clinic)
              alice clinic eq_refl eq_refl eq_refl eq_refl eq_refl eq_refl
              (or_introl eq_refl) Hfresh Habsent) as [new [He [_ [_ Hm]]]].
  exists new. split; [exact He | exact Hm].
Defined.

Lemma approve_event_matches_refetch_witness :
  let w := at_server (Some alice) 9 row2 in
  let mine := consent row1 alice clinic true false false false 1 1 in
  let other := consent row2 bob clinic true true true false 2 2 in
  serves w alice /\ NoDup (map id [mine; other])
  /\ Consent.on_postgres_changes
       (Consent.UPDATE (consent row1 alice clinic true false false true 1 9)) [mine]
     = listing alice (table (run w [mine; other] (Consent.approve mine [mine]))).
Proof.
  intros w mine other.
  assert (Hsv : serves w alice) by (unfold serves; repeat split).
  assert (Hnd : NoDup (map id [mine; other])).
  { simpl. repeat constructor; simpl; [intros [H|[]]; discriminate H | intros []]. }
  split; [exact Hsv|]. split; [exact Hnd|].
  exact (approve_event_matches_refetch w [mine; other] alice mine mine [mine]
           Hsv eq_refl Hnd (or_introl eq_refl) eq_refl eq_refl).
Defined.

Lemma deny_event_matches_refetch_witness :
  let w := at_server (Some alice) 9 row2 in
  let mine := consent row1 alice clinic true false false false 1 1 in
  let other := consent row2 bob clinic true true true false 2 2 in
  serves w alice
  /\ Consent.on_postgres_changes (Consent.DELETE row1) [mine]
     = listing alice (table (run w [mine; other] (Consent.deny mine [mine]))).
Proof.
  intros w mine other.
  assert (Hsv : serves w alice) by (unfold serves; repeat split).
  split; [exact Hsv|].
  exact (deny_event_matches_refetch w [mine; other] alice mine [mine] Hsv eq_refl).
Defined.

Lemma mirror_ids_stay_unique_witness :
  let mine := consent row1 alice clinic true false false false 1 1 in
  let new := consent row2 alice bob false false false true 2 2 in
  NoDup (map id [mine])
  /\ NoDup (map id (Consent.on_postgres_changes (Consent.INSERT new) [mine])).
Proof.
  intros mine new.
  assert (Hnd : NoDup (map id [mine])) by (repeat constructor; intros []).
  split; [exact Hnd|].
  apply (mirror_ids_stay_unique [mine] (Consent.INSERT new) Hnd).
  intros new' H. inversion H. reflexivity.
Defined.

Lemma insert_event_then_its_delete_witness :
  let mine := consent row1 alice clinic true false false false 1 1 in
  let new := consent row2 alice bob false false false false 2 2 in
  let new' := consent row2 alice bob false false false true 2 5 in
  present (id new) [mine] = false
  /\ Consent.on_postgres_changes (Consent.DELETE row2)
       (Consent.on_postgres_changes (Consent.INSERT new) [mine]) = [mine]
  /\ Consent.on_postgres_changes (Consent.UPDATE new')
       (Consent.on_postgres_changes (Consent.INSERT new) [mine]) = [mine; new'].
Proof.
  intros mine new new'. split; [reflexivity|].
  exact (insert_event_then_its_delete [mine] new new' eq_refl eq_refl).
Defined.

Lemma sections_split_mirror_witness :
  let granted := consent row1 alice clinic true false false true 1 1 in
  let asked := consent row2 alice bob false false false false 2 2 in
  [granted; asked] <> []
  /\ ConsentView.currentAccess [granted; asked] = ConsentView.entries [granted]
  /\ ConsentView.accessRequests [granted; asked] = ConsentView.entries [asked].
Proof.
  intros granted asked.
  assert (Hne : [granted; asked] <> []) by discriminate.
  destruct (sections_split_mirror [granted; asked] Hne) as [Hc [Hp _]].
  split; [exact Hne|]. split; [exact Hc | exact Hp].
Defined.

Lemma auth_error_in_hook_witness :
  let missing := {| UseSupabaseUser.name := "AuthSessionMissingError";
                    UseSupabaseUser.message := "Auth session missing!" |} in
  let r := {| UseSupabaseUser.user := None; UseSupabaseUser.userError := Some missing |} in
  UseSupabaseUser.userError r = Some missing
  /\ UseSupabaseUser.fetchUserData (UseSupabaseUser.fulfilled r)
       (fun _ => UseSupabaseUser.rejected "offline") UseSupabaseUser.initial
     = ({| UseSupabaseUser.userData := None;
           UseSupabaseUser.loading := false;
           UseSupabaseUser.error := None |}, []).
Proof.
  intros missing r. split; [reflexivity|].
  destruct (auth_error_in_hook r missing (fun _ => UseSupabaseUser.rejected "offline")
              UseSupabaseUser.initial eq_refl) as [H _].
  exact (proj1 (H eq_refl)).
Defined.

Lemma profile_failure_in_hook_witness :
  let r := {| UseSupabaseUser.user := Some (UserData.mk alice);
              UseSupabaseUser.userError := None |} in
  let p := {| UseSupabaseUser.profileData := None;
              UseSupabaseUser.profileError := Some "no rows" |} in
  let out := UseSupabaseUser.fetchUserData (UseSupabaseUser.fulfilled r)
               (fun _ => UseSupabaseUser.fulfilled p) UseSupabaseUser.initial in
  UseSupabaseUser.user r = Some (UserData.mk alice)
  /\ UseSupabaseUser.page_user (fst out) = Some alice
  /\ UseSupabaseUser.error (fst out) = None
  /\ snd out = [UseSupabaseUser.console_warn "Error fetching user profile:"].
Proof.
  intros r p out. split; [reflexivity|].
  destruct (profile_failure_in_hook r (UserData.mk alice)
              (fun _ => UseSupabaseUser.fulfilled p) UseSupabaseUser.initial
              eq_refl eq_refl) as [H _].
  destruct (H p eq_refl) as [_ [Hu [He [Hw _]]]].
  split; [exact Hu|]. split; [exact He|]. apply Hw. discriminate.
Defined.

Lemma unparsed_provider_id_refused_witness :
  let w := at_server (Some alice) 9 row1 in
  let r := run w []
             (Providers.handleAddProvider (signed alice) "0.k3j9x0q2a"
                "2024-03-16T08:00:00Z" city_clinic Providers.initial) in
  uuid_in (env w) "k3j9x0q2a" = false
  /\ table r = []
  /\ log r = [console_error "Error creating consent record:"].
Proof.
  intros w r. split; [reflexivity|].
  destruct (unparsed_provider_id_refused w [] (signed alice) alice eq_refl eq_refl)
    as [H _].
  exact (H "0.k3j9x0q2a" "2024-03-16T08:00:00Z" city_clinic Providers.initial eq_refl).
Defined.
